(** * uploads/post_processing.py: upload and video-build utility

    A shallow embedding of [src/uploads/post_processing.py] and the
    properties of it that the specification states.

    The script is glue code over the operating system, [ffmpeg] and an S3
    client.  Everything it computes itself (object keys, camera identifiers,
    log-file paths, command lines, the order and number of external calls,
    which exceptions it catches) is modelled as executable definitions.
    What the outside world answers (is this path a directory, what does
    [glob] return, does this call raise) is read from a [World] record of
    oracles, and every effect the script performs is appended to a trace of
    [event]s.

    Strings are [string]s of bytes (UTF-8).  The separators the script looks
    for, ['_'], ['/'] and ['.'], are single ASCII bytes, so splitting on them
    byte-wise agrees with Python's splitting on code points. *)

From Stdlib Require Import String Ascii List Bool Arith Lia.
From Stdlib Require Import DecimalString.
Import ListNotations.

Local Open Scope list_scope.
Local Open Scope string_scope.

(* ================================================================== *)
(** ** Exceptions and results *)

(** The exception classes the script can meet.  [ClientError] is
    [botocore.exceptions.ClientError], the only class named by the handler
    of [upload_file].  [OtherError cls msg] stands for an instance of any
    other subclass of [Exception] that is not a [ClientError], named by its
    class.  Every constructor is a subclass of [Exception]. *)
Inductive exn : Type :=
| ClientError (msg : string)
| TypeError (msg : string)
| IndexError (msg : string)
| OSError (msg : string)
| OtherError (cls msg : string).

(** [str(e)], as used by ["{}".format(e)] and [logging.error(e)]. *)
Definition exn_str (e : exn) : string :=
  match e with
  | ClientError m | TypeError m | IndexError m | OSError m => m
  | OtherError _ m => m
  end.

(** [isinstance(e, ClientError)]. *)
Definition is_ClientError (e : exn) : bool :=
  match e with ClientError _ => true | _ => false end.

Inductive result (A : Type) : Type :=
| Ret (a : A)
| Raise (e : exn).
Arguments Ret {A} a.
Arguments Raise {A} e.

(* ================================================================== *)
(** ** Python string operations used by the script *)

Module PyStr.

(** Number of occurrences of the byte [c] in [s]. *)
Fixpoint count (c : ascii) (s : string) : nat :=
  match s with
  | EmptyString => 0
  | String a s' => (if Ascii.eqb a c then 1 else 0) + count c s'
  end.

Definition cons_head (a : ascii) (l : list string) : list string :=
  match l with
  | [] => [String a EmptyString]
  | h :: t => String a h :: t
  end.

(** [s.split(sep, maxsplit)] for a one-character separator and
    [maxsplit >= 0]: at most [maxsplit] cuts, from the left; the rest of
    the string is the last item. *)
Fixpoint split (sep : ascii) (s : string) (maxsplit : nat) {struct s}
  : list string :=
  match s with
  | EmptyString => [EmptyString]
  | String a s' =>
      match maxsplit with
      | 0 => [s]
      | S m =>
          if Ascii.eqb a sep then EmptyString :: split sep s' m
          else cons_head a (split sep s' maxsplit)
      end
  end.

(** [s.split(sep)] without a limit. *)
Fixpoint split_all (sep : ascii) (s : string) : list string :=
  match s with
  | EmptyString => [EmptyString]
  | String a s' =>
      if Ascii.eqb a sep then EmptyString :: split_all sep s'
      else cons_head a (split_all sep s')
  end.

(** [l[-1]]: the last item; [IndexError] on an empty list. *)
Fixpoint last_item (l : list string) : result string :=
  match l with
  | [] => Raise (IndexError "list index out of range")
  | [x] => Ret x
  | _ :: t => last_item t
  end.

(** [s.startswith(p)] and [s.endswith(p)]. *)
Fixpoint startswith (p s : string) : bool :=
  match p, s with
  | EmptyString, _ => true
  | String a p', String b s' => Ascii.eqb a b && startswith p' s'
  | String _ _, EmptyString => false
  end.

Fixpoint endswith (p s : string) : bool :=
  match s with
  | EmptyString => String.eqb p EmptyString
  | String _ s' => String.eqb p s || endswith p s'
  end.

(** ["{}".format(x)] for an optional string: [None] prints as the four
    letters [None]. *)
Definition format (x : option string) : string :=
  match x with
  | None => "None"
  | Some s => s
  end.

(** Truth value of an optional string in [if x:]: [None] and the empty
    string are false. *)
Definition truthy (x : option string) : bool :=
  match x with
  | None => false
  | Some s => negb (String.eqb s EmptyString)
  end.

(** [str(n)] for a natural number. *)
Definition of_nat (n : nat) : string :=
  NilEmpty.string_of_uint (Nat.to_uint n).

End PyStr.

(** Words of the specification, for comparison with the code. *)
Module SpecWords.

(** The remainder of [s] after the first [c]; empty when there is none. *)
Fixpoint after_first (c : ascii) (s : string) : string :=
  match s with
  | EmptyString => EmptyString
  | String a s' => if Ascii.eqb a c then s' else after_first c s'
  end.

(** The remainder after [n] occurrences of [c]. *)
Fixpoint after_nth (c : ascii) (n : nat) (s : string) : string :=
  match n with
  | 0 => s
  | S n' => after_nth c n' (after_first c s)
  end.

(** "The remainder after the second underscore". *)
Definition after_second (c : ascii) (s : string) : string :=
  after_first c (after_first c s).

(** "The portion after the last underscore present (the whole name when
    the name contains no underscore)". *)
Fixpoint after_last (c : ascii) (s : string) : string :=
  match s with
  | EmptyString => EmptyString
  | String a s' =>
      if Nat.eqb (PyStr.count c s') 0
      then (if Ascii.eqb a c then s' else s)
      else after_last c s'
  end.

End SpecWords.

(* ================================================================== *)
(** ** Camera identifier (build_videos, lines 54-55) *)

(** [camera_folder_name.split('_', 2)[-1]]. *)
Definition camera_identifier (camera_folder_name : string) : result string :=
  PyStr.last_item (PyStr.split "_" camera_folder_name 2).


(* ================================================================== *)
(** ** os.path and pathlib on POSIX *)

Module OsPath.

(** [os.path.basename(p)], that is [p[p.rfind('/')+1:]]. *)
Fixpoint basename (p : string) : string :=
  match p with
  | EmptyString => EmptyString
  | String a p' =>
      if Nat.eqb (PyStr.count "/" p') 0
      then (if Ascii.eqb a "/" then p' else p)
      else basename p'
  end.

(** [p[:p.rfind('/')+1]]: everything up to and including the last slash. *)
Fixpoint head (p : string) : string :=
  match p with
  | EmptyString => EmptyString
  | String a p' =>
      if Nat.eqb (PyStr.count "/" p') 0
      then (if Ascii.eqb a "/" then "/" else EmptyString)
      else String a (head p')
  end.

(** [s.rstrip('/')]. *)
Fixpoint rstrip_slash (s : string) : string :=
  match s with
  | EmptyString => EmptyString
  | String a s' =>
      match rstrip_slash s' with
      | EmptyString => if Ascii.eqb a "/" then EmptyString else String a EmptyString
      | r => String a r
      end
  end.

(** [s == '/' * len(s)]. *)
Fixpoint all_slash (s : string) : bool :=
  match s with
  | EmptyString => true
  | String a s' => Ascii.eqb a "/" && all_slash s'
  end.

(** [os.path.dirname(p)]. *)
Definition dirname (p : string) : string :=
  let h := head p in
  if negb (String.eqb h EmptyString) && negb (all_slash h)
  then rstrip_slash h else h.

(** [os.path.join(a, b)]. *)
Definition join (a b : string) : string :=
  if PyStr.startswith "/" b then b
  else if String.eqb a EmptyString || PyStr.endswith "/" a then a ++ b
  else a ++ "/" ++ b.

End OsPath.

Module PathLib.

(** A [pathlib.PosixPath]: its root (empty, one slash or two slashes) and
    its name components. *)
Record Path : Type := mkPath { root : string; parts : list string }.

(** [s.lstrip('/')]. *)
Fixpoint lstrip_slash (s : string) : string :=
  match s with
  | String a s' => if Ascii.eqb a "/" then lstrip_slash s' else s
  | EmptyString => EmptyString
  end.

(** The POSIX [splitroot]: exactly two leading slashes are kept as the
    root, any other number of them is one slash. *)
Definition splitroot (s : string) : string * string :=
  if PyStr.startswith "/" s then
    let stripped := lstrip_slash s in
    if Nat.eqb (String.length s - String.length stripped) 2
    then ("//", stripped) else ("/", stripped)
  else (EmptyString, s).

Definition is_name (x : string) : bool :=
  negb (String.eqb x EmptyString) && negb (String.eqb x ".").

(** [Path(s)]: empty components and [.] components are dropped. *)
Definition parse (s : string) : Path :=
  let (r, rel) := splitroot s in
  mkPath r (filter is_name (PyStr.split_all "/" rel)).

(** [p.parent]; the parent of a path without components is itself. *)
Definition parent (p : Path) : Path :=
  mkPath (root p) (removelast (parts p)).

(** [p.absolute()] in the working directory [cwd]. *)
Definition absolute (cwd : string) (p : Path) : Path :=
  if String.eqb (root p) EmptyString
  then let c := parse cwd in mkPath (root c) (parts c ++ parts p)%list
  else p.

(** [str(p)], which is also [os.fspath(p)]. *)
Definition str (p : Path) : string :=
  let s := root p ++ String.concat "/" (parts p) in
  if String.eqb s EmptyString then "." else s.

End PathLib.

(* ================================================================== *)
(** ** Effects: the trace and the outside world *)

(** A launched process: the shell command and the file that receives its
    standard output and standard error. *)
Record process : Type := mkProcess { proc_cmd : string; proc_log : string }.

(** What the script does to the outside world, in the order it does it. *)
Inductive event : Type :=
| LogInfo (msg : string)                      (* logging.info *)
| LogError (msg : string)                     (* logging.error *)
| Makedirs (path : string)                    (* os.makedirs(path, exist_ok=True) done *)
| OpenWrite (path : string)                   (* open(path, "w") done *)
| Launched (p : process)                      (* Popen(cmd, shell=True, ...) returned *)
| Waited (p : process)                        (* p.wait() returned *)
| S3UploadCall (file_name bucket object_name : string).
                                              (* s3_client.upload_file called *)

(** The outside world.  Queries of the file system are answered by
    functions of the path; every call that can fail is answered by an oracle
    that sees the events so far and says whether the call raises. *)
Record World : Type := mkWorld {
  getcwd : string;
  isdir : string -> bool;
  isfile : string -> bool;
  glob_glob : string -> bool -> list string;   (* glob.glob(pattern, recursive=...) *)
  makedirs_raises : list event -> string -> option exn;
  open_raises : list event -> string -> option exn;
  popen_raises : list event -> string -> option exn;
  boto3_client_raises : list event -> option exn;
  s3_upload_raises : list event -> string -> string -> string -> option exn
}.

(** A computation reads the events so far and answers with a value or an
    exception, and with the events it added. *)
Definition M (A : Type) : Type := list event -> result A * list event.

Definition ret {A} (a : A) : M A := fun _ => (Ret a, []).

Definition bind {A B} (m : M A) (k : A -> M B) : M B :=
  fun h =>
    match m h with
    | (Ret a, d) => let (r, d') := k a (h ++ d)%list in (r, (d ++ d')%list)
    | (Raise e, d) => (Raise e, d)
    end.

Definition lift {A} (r : result A) : M A := fun _ => (r, []).

Definition emit (ev : event) : M unit := fun _ => (Ret tt, [ev]).

(** [try: m  except <class> as e: handler e], where [catches] is the
    [isinstance] test of the class. *)
Definition try_except {A} (m : M A) (catches : exn -> bool)
    (handler : exn -> M A) : M A :=
  fun h =>
    match m h with
    | (Ret a, d) => (Ret a, d)
    | (Raise e, d) =>
        if catches e
        then let (r, d') := handler e (h ++ d)%list in (r, (d ++ d')%list)
        else (Raise e, d)
    end.

(** A call that either raises, without effect, or happens. *)
Definition attempt (raises : list event -> option exn) (ev : event) : M unit :=
  fun h =>
    match raises h with
    | Some e => (Raise e, [])
    | None => (Ret tt, [ev])
    end.

Declare Scope py_scope.
Delimit Scope py_scope with py.
Notation "x <- m ;; k" := (bind m (fun x => k))
  (at level 61, m at next level, right associativity) : py_scope.
Notation "m ;; k" := (bind m (fun _ => k))
  (at level 61, right associativity) : py_scope.
Local Open Scope py_scope.

Definition logging_info (msg : string) : M unit := emit (LogInfo msg).
Definition logging_error (msg : string) : M unit := emit (LogError msg).

(** [os.path.isdir(p)] for an optional string: [os.stat(None)] raises
    [TypeError], which [isdir] does not catch. *)
Definition os_path_isdir (w : World) (p : option string) : M bool :=
  match p with
  | None =>
      lift (Raise (TypeError
        "stat: path should be string, bytes, os.PathLike or integer, not NoneType"))
  | Some s => ret (isdir w s)
  end.

(* ================================================================== *)
(** ** upload_file (lines 13-33) *)

(** [s3_client.upload_file(file_name, bucket, object_name)]: the call is
    made, and then returns or raises as the world decides. *)
Definition s3_client_upload_file (w : World)
    (file_name bucket object_name : string) : M unit :=
  fun h =>
    (match s3_upload_raises w h file_name bucket object_name with
     | Some e => Raise e
     | None => Ret tt
     end,
     [S3UploadCall file_name bucket object_name]).

(** [boto3.client('s3')]; it stands before the [try]. *)
Definition boto3_client (w : World) : M unit :=
  fun h =>
    match boto3_client_raises w h with
    | Some e => (Raise e, [])
    | None => (Ret tt, [])
    end.

Definition upload_file (w : World) (file_name bucket : string)
    (object_name : option string) : M bool :=
  (* If S3 object_name was not specified, use file_name *)
  let object_name :=
    if negb (PyStr.truthy object_name) then OsPath.basename file_name
    else PyStr.format object_name in
  (* Upload the file *)
  boto3_client w ;;
  try_except
    (s3_client_upload_file w file_name bucket object_name ;; ret true)
    is_ClientError
    (fun e => logging_error (exn_str e) ;; ret false).

(* ================================================================== *)
(** ** build_videos (lines 36-78) *)

(** [os.path.basename(Path(folder).parent.absolute())] (lines 51-52). *)
Definition camera_folder_name (w : World) (folder : string) : string :=
  let rgb_path := PathLib.parse folder in
  OsPath.basename (PathLib.str (PathLib.absolute (getcwd w) (PathLib.parent rgb_path))).

(** [os.path.join(curr_dir, "video_creation_logs", "{}.log".format(name))]
    (line 58). *)
Definition log_file_path (curr_dir name : string) : string :=
  OsPath.join (OsPath.join curr_dir "video_creation_logs") (name ++ ".log").

(** The command line of lines 64-66. *)
Definition ffmpeg_command (folder name : string) : string :=
  "ffmpeg -nostdin -r 30 -f image2 -s 1920x1080 -start_number 0 -y -i "
  ++ folder ++ "/%d.jpeg -vcodec libx264 -crf 23 -pix_fmt yuv420p "
  ++ folder ++ "/" ++ name ++ ".mp4".

Definition os_makedirs (w : World) (path : string) : M unit :=
  attempt (fun h => makedirs_raises w h path) (Makedirs path).

Definition open_w (w : World) (path : string) : M string :=
  attempt (fun h => open_raises w h path) (OpenWrite path) ;; ret path.

Definition Popen (w : World) (cmd log_file : string) : M process :=
  let p := mkProcess cmd log_file in
  attempt (fun h => popen_raises w h cmd) (Launched p) ;; ret p.

(** The loop of lines 49-69, from a given [build_process_list]. *)
Fixpoint launch_each (w : World) (curr_dir : string) (rgb_folders : list string)
    (build_process_list : list process) : M (list process) :=
  match rgb_folders with
  | [] => ret build_process_list
  | folder :: rest =>
      (* Get parent folder name *)
      let name := camera_folder_name w folder in
      (* Split till the second occurence of '_' and use the last portion *)
      name <- lift (camera_identifier name) ;;
      (* Create log folder and log files for video generation *)
      let log_file_path := log_file_path curr_dir name in
      os_makedirs w (OsPath.dirname log_file_path) ;;
      log_file <- open_w w log_file_path ;;
      (* Run ffmpeg command for creating videos *)
      build_process <- Popen w (ffmpeg_command folder name) log_file ;;
      launch_each w curr_dir rest (build_process_list ++ [build_process])%list
  end.

(** The loop of lines 72-73. *)
Fixpoint wait_each (build_process_list : list process) : M unit :=
  match build_process_list with
  | [] => ret tt
  | p :: rest => emit (Waited p) ;; wait_each rest
  end.

Definition newline : string := String (ascii_of_nat 10) EmptyString.

Definition started_msg (source_directory : option string) (curr_dir : string) : string :=
  "Creating videos from images in source_directory - "
  ++ PyStr.format source_directory
  ++ ". This might take a while based on the length of video to be generated. Logs for video creation are at "
  ++ OsPath.join curr_dir "video_creation_logs" ++ ".".

Definition ffmpeg_failed_msg (e : exn) : string :=
  "Could not run ffmpeg command due to error - " ++ exn_str e ++ ". "
  ++ newline ++ " Note, this operation requires ffmpeg to be installed".

Definition invalid_source_directory : string := "Invalid source_directory passed.".

Definition build_videos (w : World) (source_directory : option string) : M unit :=
  ok <- os_path_isdir w source_directory ;;
  if ok then
    (* Grab all the rgb folders in the source directory *)
    let rgb_folders := glob_glob w (PyStr.format source_directory ++ "/*/rgb/") false in
    let curr_dir := getcwd w in
    logging_info (started_msg source_directory curr_dir) ;;
    try_except
      (build_process_list <- launch_each w curr_dir rgb_folders [] ;;
       (* Wait for all ffmpeg processes to finish *)
       wait_each build_process_list ;;
       logging_info "Finished creating videos from images.")
      (fun _ => true)
      (fun e => logging_error (ffmpeg_failed_msg e))
  else
    logging_error invalid_source_directory.

(* ================================================================== *)
(** ** main (lines 93-129) *)

(** The namespace [get_args] returns: every option is [None] when it is not
    given; [build] is a [store_true] flag. *)
Record Args : Type := mkArgs {
  source_directory : option string;
  build : bool;
  format_to_copy : option string;
  destination_directory : option string;
  source_file : option string;
  destination_file : option string;
  bucket : option string
}.

(** The loop of lines 114-120. *)
Fixpoint upload_each (w : World) (files : list string) (bucket : string)
    (destination_directory : option string) : M unit :=
  match files with
  | [] => ret tt
  | file :: rest =>
      logging_info ("Copying file " ++ file) ;;
      let file_name := OsPath.basename file in
      let destination_object :=
        if PyStr.truthy destination_directory
        then Some (PyStr.format destination_directory ++ "/" ++ file_name)
        else None in
      upload_file w file bucket destination_object ;;
      upload_each w rest bucket destination_directory
  end.

(** The pattern of line 112, ["{}/**/*.{}".format(source_directory,
    format_to_copy)], and the files it selects. *)
Definition upload_pattern (source_directory format_to_copy : option string) : string :=
  PyStr.format source_directory ++ "/**/*." ++ PyStr.format format_to_copy.

Definition resolve_files (w : World) (source_directory format_to_copy : option string)
  : list string :=
  glob_glob w (upload_pattern source_directory format_to_copy) true.

(** Lines 110-122: upload the files of a directory that match a format. *)
Definition directory_upload (w : World) (source_directory format_to_copy
    destination_directory : option string) (bucket : string) : M unit :=
  if PyStr.truthy source_directory then
    ok <- os_path_isdir w source_directory ;;
    if ok then
      let files := resolve_files w source_directory format_to_copy in
      logging_info ("Total files to copy - " ++ PyStr.of_nat (List.length files)) ;;
      upload_each w files bucket destination_directory
    else
      logging_error invalid_source_directory
  else ret tt.

(** Lines 124-129: upload a single file. *)
Definition single_file_upload (w : World) (source_file destination_file : option string)
    (bucket : string) : M unit :=
  match source_file with
  | Some file =>
      if PyStr.truthy source_file then
        if isfile w file then
          logging_info ("Copying file " ++ file) ;;
          upload_file w file bucket destination_file ;;
          ret tt
        else
          logging_error "Invalid source_file passed."
      else ret tt
  | None => ret tt
  end.

Definition main (w : World) (args : Args) : M unit :=
  (* Build videos from images present in source directory *)
  (if build args then build_videos w (source_directory args) else ret tt) ;;
  (* If S3 bucket is provided, upload content to S3 bucket. *)
  match bucket args with
  | Some b =>
      if PyStr.truthy (bucket args) then
        directory_upload w (source_directory args) (format_to_copy args)
          (destination_directory args) b ;;
        single_file_upload w (source_file args) (destination_file args) b
      else ret tt
  | None => ret tt
  end.

(** The events of a run that started with an empty trace. *)
Definition run {A} (m : M A) : result A * list event := m [].

(* ================================================================== *)
(** ** Reading traces *)

Definition s3_calls (t : list event) : list (string * string * string) :=
  flat_map (fun ev => match ev with
                      | S3UploadCall f b k => [(f, b, k)]
                      | _ => []
                      end) t.

Definition launched (t : list event) : list process :=
  flat_map (fun ev => match ev with Launched p => [p] | _ => [] end) t.

Definition opened (t : list event) : list string :=
  flat_map (fun ev => match ev with OpenWrite p => [p] | _ => [] end) t.

Definition logged_errors (t : list event) : list string :=
  flat_map (fun ev => match ev with LogError m => [m] | _ => [] end) t.

(** The object name [upload_file] hands to the client (lines 23-24). *)
Definition object_key (file_name : string) (object_name : option string) : string :=
  if negb (PyStr.truthy object_name) then OsPath.basename file_name
  else PyStr.format object_name.

(** The object name line 117-119 and then [upload_file] give to a file of a
    directory upload. *)
Definition directory_key (destination_directory : option string) (file : string)
  : string :=
  if PyStr.truthy destination_directory
  then PyStr.format destination_directory ++ "/" ++ OsPath.basename file
  else OsPath.basename file.

(** The identifier the loop of [build_videos] derives for a folder that
    [glob] returned; the derivation never raises (see
    [camera_identifier_returns]). *)
Definition identifier_of (w : World) (folder : string) : string :=
  match camera_identifier (camera_folder_name w folder) with
  | Ret name => name
  | Raise _ => EmptyString
  end.

(** The events of one job of the loop when nothing raises. *)
Definition job_process (w : World) (folder : string) : process :=
  mkProcess (ffmpeg_command folder (identifier_of w folder))
            (log_file_path (getcwd w) (identifier_of w folder)).

Definition job_events (w : World) (folder : string) : list event :=
  [Makedirs (OsPath.dirname (log_file_path (getcwd w) (identifier_of w folder)));
   OpenWrite (log_file_path (getcwd w) (identifier_of w folder));
   Launched (job_process w folder)].

(** In [w], the process of a folder can always be launched. *)
Definition launches (w : World) (folder : string) : Prop :=
  forall h, popen_raises w h (ffmpeg_command folder (identifier_of w folder)) = None.


(** Worlds that differ from a given one in one oracle. *)
Definition with_s3_upload_raises (w : World)
    (o : list event -> string -> string -> string -> option exn) : World :=
  mkWorld (getcwd w) (isdir w) (isfile w) (glob_glob w) (makedirs_raises w)
          (open_raises w) (popen_raises w) (boto3_client_raises w) o.

Definition with_popen_raises (w : World)
    (o : list event -> string -> option exn) : World :=
  mkWorld (getcwd w) (isdir w) (isfile w) (glob_glob w) (makedirs_raises w)
          (open_raises w) o (boto3_client_raises w) (s3_upload_raises w).

(** The distinct strings of a list. *)
Definition distinct (l : list string) : list string := nodup string_dec l.

(* ================================================================== *)
(** ** What glob.glob answers on a directory tree

    The script leaves the search to Python's [glob.glob].  This section
    writes out what that library function returns for the two patterns the
    script builds, on a directory given as a tree, following the library's
    [_iglob], [_glob0], [_glob1], [_glob2] and [_rlistdir].  It covers a
    root and an extension free of the pattern characters [*], [?] and [[];
    symbolic links are not modelled.  The order of a directory's entries is
    the order in which [os.scandir] lists them. *)

Module PyGlob.

#[local] Set Warnings "-register-all".

Inductive node : Type :=
| File
| Dir (entries : list (string * node)).

Definition is_dir (n : node) : bool :=
  match n with Dir _ => true | File => false end.

(** [_ishidden]: the name begins with a dot. *)
Definition ishidden (name : string) : bool := PyStr.startswith "." name.

(** [has_magic]: one of [*], [?], [[] occurs. *)
Fixpoint has_magic (s : string) : bool :=
  match s with
  | EmptyString => false
  | String a s' =>
      Ascii.eqb a "*" || Ascii.eqb a "?" || Ascii.eqb a "[" || has_magic s'
  end.

(** [_glob1(dir, "*." + ext)]: the entries of one directory, files and
    directories alike, that are not hidden and that [fnmatch] accepts,
    which for an [ext] without pattern characters means that the name
    ends with a dot and [ext]. *)
Definition glob1_ext (entries : list (string * node)) (ext : string) : list string :=
  filter (fun x => negb (ishidden x) && PyStr.endswith ("." ++ ext) x)
         (map fst entries).

(** [_rlistdir(dir, dironly=True)]: every directory below, hidden ones
    neither listed nor entered, each before its own subdirectories. *)
Fixpoint rlistdir (n : node) : list (string * list (string * node)) :=
  match n with
  | File => []
  | Dir entries =>
      (fix each (l : list (string * node)) : list (string * list (string * node)) :=
         match l with
         | [] => []
         | (x, c) :: l' =>
             (match c with
              | Dir sub =>
                  if ishidden x then []
                  else (x, sub)
                       :: map (fun '(y, ys) => (OsPath.join x y, ys)) (rlistdir c)
              | File => []
              end ++ each l')%list
         end) entries
  end.

(** [_glob2(root, "**", dironly=True)]: the root itself, as the empty
    relative path, and then the directories below it. *)
Definition glob2 (entries : list (string * node))
  : list (string * list (string * node)) :=
  (EmptyString, entries) :: rlistdir (Dir entries).

(** [glob.glob(root + "/**/*." + ext, recursive=True)]. *)
Definition recursive_ext (root : string) (entries : list (string * node))
    (ext : string) : list string :=
  flat_map (fun '(rel, sub) =>
              map (OsPath.join (OsPath.join root rel)) (glob1_ext sub ext))
           (glob2 entries).

(** [glob.glob(root + "/*/rgb/")]: one path per directory of the root that
    is not hidden and holds a directory named [rgb]. *)
Definition camera_folders (root : string) (entries : list (string * node))
  : list string :=
  flat_map (fun '(x, c) =>
              match c with
              | Dir sub =>
                  if negb (ishidden x)
                     && existsb (fun '(y, d) => String.eqb y "rgb" && is_dir d) sub
                  then [OsPath.join (OsPath.join (OsPath.join root x) "rgb") ""]
                  else []
              | File => []
              end) entries.

(** The entries of a tree are named as directory entries are: the names
    are not empty and hold no slash. *)
Definition name_ok (x : string) : bool :=
  negb (String.eqb x EmptyString) && Nat.eqb (PyStr.count "/" x) 0.

Fixpoint names_ok (n : node) : bool :=
  match n with
  | File => true
  | Dir entries =>
      (fix each (l : list (string * node)) : bool :=
         match l with
         | [] => true
         | (x, c) :: l' => name_ok x && names_ok c && each l'
         end) entries
  end.

(** [reaches entries ds sub]: from a directory with the given entries,
    the directory names [ds], one below the other, lead to the directory
    whose entries are [sub]. *)
Inductive reaches : list (string * node) -> list string -> list (string * node)
                    -> Prop :=
| reaches_here entries : reaches entries [] entries
| reaches_below entries d sub ds sub' :
    In (d, Dir sub) entries -> reaches sub ds sub' ->
    reaches entries (d :: ds) sub'.

(** A name that glob's wildcards match, and a name as a directory entry
    has it. *)
Definition visible (c : string) : Prop := ishidden c = false.
Definition named (d : string) : Prop := name_ok d = true.

Definition entries_of (n : node) : list (string * node) :=
  match n with Dir entries => entries | File => [] end.

(** The step of [rlistdir] for one entry. *)
Definition rlistdir_entry (xc : string * node)
  : list (string * list (string * node)) :=
  let '(x, c) := xc in
  match c with
  | Dir sub =>
      if ishidden x then []
      else (x, sub) :: map (fun '(y, ys) => (OsPath.join x y, ys)) (rlistdir c)
  | File => []
  end.

End PyGlob.

(** A root as the tree model covers it. *)
Definition plain_root (root : string) : bool :=
  negb (String.eqb root EmptyString)
  && negb (PyGlob.has_magic root)
  && negb (PyStr.endswith "/" root).

(** An extension as the tree model covers it. *)
Definition plain_ext (ext : string) : bool :=
  negb (PyGlob.has_magic ext) && Nat.eqb (PyStr.count "/" ext) 0.

(** The world [w] has, at the path [root], a directory with the given
    entries, and its [glob.glob] answers for it as the library does. *)
Definition holds_directory (w : World) (root : string)
    (entries : list (string * PyGlob.node)) : Prop :=
  isdir w root = true /\
  (forall ext, plain_ext ext = true ->
     glob_glob w (root ++ "/**/*." ++ ext) true
     = PyGlob.recursive_ext root entries ext).

(** [strip_prefix p s] is the rest of [s] after the prefix [p]. *)
Fixpoint strip_prefix (p s : string) : option string :=
  match p, s with
  | EmptyString, _ => Some s
  | String a p', String b s' => if Ascii.eqb a b then strip_prefix p' s' else None
  | String _ _, EmptyString => None
  end.

(** A small world for examples: one directory [root] with the given
    entries, the working directory [cwd], and no call ever raising. *)
Definition tree_world (cwd root : string) (entries : list (string * PyGlob.node))
  : World :=
  {| getcwd := cwd;
     isdir := fun p => String.eqb p root;
     isfile := fun _ => false;
     glob_glob := fun pattern recursive =>
       if String.eqb pattern (root ++ "/*/rgb/")
       then PyGlob.camera_folders root entries
       else match strip_prefix (root ++ "/**/*.") pattern with
            | Some ext =>
                if recursive && plain_ext ext
                then PyGlob.recursive_ext root entries ext else []
            | None => []
            end;
     makedirs_raises := fun _ _ => None;
     open_raises := fun _ _ => None;
     popen_raises := fun _ _ => None;
     boto3_client_raises := fun _ => None;
     s3_upload_raises := fun _ _ _ _ => None |}.

(** The words of the specification for the resolver: "the set of all file
    paths under the root (recursively) whose name ends with that suffix". *)
Definition file_with_suffix (root : string) (entries : list (string * PyGlob.node))
    (suffix : string) (p : string) : Prop :=
  exists ds sub x,
    PyGlob.reaches entries ds sub /\ In (x, PyGlob.File) sub /\
    PyStr.endswith suffix x = true /\
    p = root ++ "/" ++ String.concat "/" (ds ++ [x]).

(** What the resolver selects: an entry, file or directory, that lies under
    the root through directories, no name on the way beginning with a dot,
    and whose own name ends with a dot and the extension. *)
Definition visible_with_extension (root : string)
    (entries : list (string * PyGlob.node)) (ext : string) (p : string) : Prop :=
  exists ds sub x n,
    PyGlob.reaches entries ds sub /\ In (x, n) sub /\
    Forall PyGlob.visible (ds ++ [x]) /\
    PyStr.endswith ("." ++ ext) x = true /\
    p = root ++ "/" ++ String.concat "/" (ds ++ [x]).

(* ================================================================== *)
(** ** Worlds for examples *)

(** Three files that end in [.png], in two directories, and two files that
    do not. *)
Definition upload_tree : list (string * PyGlob.node) :=
  [("a.png", PyGlob.File); ("b.png", PyGlob.File); ("notes.txt", PyGlob.File);
   ("sub", PyGlob.Dir [("c.png", PyGlob.File); ("d.jpg", PyGlob.File)])].

Definition upload_world : World := tree_world "/home/u" "data" upload_tree.

(** The storage service refuses every upload with a [ClientError]. *)
Definition denied_world : World :=
  with_s3_upload_raises upload_world
    (fun _ _ _ _ => Some (ClientError "An error occurred (AccessDenied)")).

(** The storage endpoint cannot be reached: the client raises botocore's
    [EndpointConnectionError], which is not a [ClientError]. *)
Definition offline : exn :=
  OtherError "EndpointConnectionError" "Could not connect to the endpoint URL".

Definition offline_world : World :=
  with_s3_upload_raises upload_world (fun _ _ _ _ => Some offline).

(** Three camera folders that follow the naming convention. *)
Definition rgb_dir : PyGlob.node := PyGlob.Dir [("0.jpeg", PyGlob.File)].

Definition camera_tree : list (string * PyGlob.node) :=
  [("World_Cameras_Camera_01", PyGlob.Dir [("rgb", rgb_dir)]);
   ("World_Cameras_Camera_02", PyGlob.Dir [("rgb", rgb_dir)]);
   ("World_Cameras_Camera_03", PyGlob.Dir [("rgb", rgb_dir)])].

Definition camera_world : World := tree_world "/home/u" "data" camera_tree.

(** The second launch fails. *)
Definition fork_failed : exn := OSError "[Errno 11] Resource temporarily unavailable".

Definition second_launch_fails_world : World :=
  with_popen_raises camera_world
    (fun _ cmd =>
       if String.eqb cmd (ffmpeg_command "data/World_Cameras_Camera_02/rgb/" "Camera_02")
       then Some fork_failed else None).

(** Two camera folders whose names differ before the second underscore
    only. *)
Definition same_identifier_tree : list (string * PyGlob.node) :=
  [("World_Cameras_Camera_01", PyGlob.Dir [("rgb", rgb_dir)]);
   ("Other_Cameras_Camera_01", PyGlob.Dir [("rgb", rgb_dir)])].

Definition same_identifier_world : World :=
  tree_world "/home/u" "data" same_identifier_tree.

(** A directory with a hidden image and a directory named like an image. *)
Definition hidden_tree : list (string * PyGlob.node) :=
  [("a.png", PyGlob.File); (".thumb.png", PyGlob.File);
   ("frames.png", PyGlob.Dir [])].

Definition hidden_world : World := tree_world "/home/u" "data" hidden_tree.

(** A directory with an image and a file whose extension is the word
    [None]. *)
Definition none_tree : list (string * PyGlob.node) :=
  [("a.png", PyGlob.File); ("weird.None", PyGlob.File)].

Definition none_world : World := tree_world "/home/u" "data" none_tree.

(** A directory with files of several kinds, hidden entries and nested
    directories. *)
Definition probe_tree : list (string * PyGlob.node) :=
  [("1.png", PyGlob.File); (".2.png", PyGlob.File); ("apng", PyGlob.File);
   ("a", PyGlob.Dir [("3.png", PyGlob.File); ("6.jpg", PyGlob.File);
                     ("8.PNG", PyGlob.File);
                     ("b", PyGlob.Dir [("4.png", PyGlob.File)]);
                     ("y.png.d", PyGlob.Dir [])]);
   (".h", PyGlob.Dir [("5.png", PyGlob.File)]);
   ("x.png", PyGlob.Dir [("7.png", PyGlob.File)])].

(** Camera folders among entries that are none: a file named [rgb], a
    hidden folder, a plain file. *)
Definition probe_cameras : list (string * PyGlob.node) :=
  [("World_Cameras_Camera_01", PyGlob.Dir [("rgb", rgb_dir)]);
   ("x", PyGlob.Dir [("rgb", PyGlob.File)]);
   (".h", PyGlob.Dir [("rgb", PyGlob.Dir [])]);
   ("rgbfile", PyGlob.File);
   ("y", PyGlob.Dir [("rgb", PyGlob.Dir [])])].

(* ================================================================== *)
(** ** More vocabulary for traces and runs *)

(** [os.path.join(curr_dir, "video_creation_logs")], the log directory. *)
Definition logs_dir (w : World) : string :=
  OsPath.join (getcwd w) "video_creation_logs".

Definition waited (t : list event) : list process :=
  flat_map (fun ev => match ev with Waited p => [p] | _ => [] end) t.

Definition made_dirs (t : list event) : list string :=
  flat_map (fun ev => match ev with Makedirs p => [p] | _ => [] end) t.

(** The events of the upload half of the script: log lines and upload
    calls. *)
Definition is_upload_event (ev : event) : Prop :=
  match ev with
  | LogInfo _ | LogError _ | S3UploadCall _ _ _ => True
  | _ => False
  end.

(** The events of the build half: everything but upload calls. *)
Definition is_build_event (ev : event) : Prop :=
  match ev with
  | S3UploadCall _ _ _ => False
  | _ => True
  end.

(** Every event a computation adds satisfies [P], whatever came before. *)
Definition emits_only {A} (P : event -> Prop) (m : M A) : Prop :=
  forall h, Forall P (snd (m h)).


(** What is left of a job's events when one of its steps raised: nothing,
    the log directory made, or the log file opened as well. *)
Definition partial_job (w : World) (folder : string) (partial : list event) : Prop :=
  partial = [] \/
  partial = [Makedirs (OsPath.dirname (log_file_path (getcwd w) (identifier_of w folder)))] \/
  partial = [Makedirs (OsPath.dirname (log_file_path (getcwd w) (identifier_of w folder)));
             OpenWrite (log_file_path (getcwd w) (identifier_of w folder))].

Definition with_makedirs_raises (w : World)
    (o : list event -> string -> option exn) : World :=
  mkWorld (getcwd w) (isdir w) (isfile w) (glob_glob w) o
          (open_raises w) (popen_raises w) (boto3_client_raises w)
          (s3_upload_raises w).

Definition with_boto3_client_raises (w : World)
    (o : list event -> option exn) : World :=
  mkWorld (getcwd w) (isdir w) (isfile w) (glob_glob w) (makedirs_raises w)
          (open_raises w) (popen_raises w) o (s3_upload_raises w).

Definition with_isfile (w : World) (f : string -> bool) : World :=
  mkWorld (getcwd w) (isdir w) f (glob_glob w) (makedirs_raises w)
          (open_raises w) (popen_raises w) (boto3_client_raises w)
          (s3_upload_raises w).

(** The working directory is not writable. *)
Definition permission_denied : exn :=
  OSError "[Errno 13] Permission denied: '/home/u/video_creation_logs'".

Definition readonly_world : World :=
  with_makedirs_raises camera_world (fun _ _ => Some permission_denied).

(** No region is configured: [boto3.client] itself raises. *)
Definition no_region : exn := OtherError "NoRegionError" "You must specify a region.".

Definition no_region_world : World :=
  with_boto3_client_raises upload_world (fun _ => Some no_region).

(** The upload directory, and beside it one file [report.csv]. *)
Definition report_world : World :=
  with_isfile upload_world (fun p => String.eqb p "out/report.csv").

Definition report_offline_world : World :=
  with_isfile offline_world (fun p => String.eqb p "out/report.csv").

(** Two files with one base name in two directories. *)
Definition twin_tree : list (string * PyGlob.node) :=
  [("cam1", PyGlob.Dir [("0.png", PyGlob.File)]);
   ("cam2", PyGlob.Dir [("0.png", PyGlob.File)])].

Definition twin_world : World := tree_world "/home/u" "data" twin_tree.

(* ================================================================== *)
(** * Properties *)

(** ** The definitions on concrete inputs *)

Example split_examples :
  PyStr.split "_" "World_Cameras_Camera_01" 2 = ["World"; "Cameras"; "Camera_01"] /\
  PyStr.split "_" "a_b" 2 = ["a"; "b"] /\
  PyStr.split "_" "" 2 = [""] /\
  PyStr.split "_" "a_b_c_d" 2 = ["a"; "b"; "c_d"] /\
  PyStr.split "_" "__" 2 = [""; ""; ""] /\
  PyStr.split "_" "abc" 2 = ["abc"].
Proof. repeat split. Qed.

Example camera_folder_name_examples :
  map (camera_folder_name (tree_world "/tmp/gt" "d" []))
      ["d/X/rgb/"; "./X/rgb/"; "rgb/"; ""; "/"; "//a/rgb/"; "/rgb/"; "d/../rgb/"]
  = ["X"; "X"; "gt"; "gt"; ""; "a"; ""; ".."].
Proof. reflexivity. Qed.

Example dirname_examples :
  map OsPath.dirname ["/video_creation_logs/a.log"; "a"; "/a"; "//a"; "a//b"; "a/b/"]
  = ["/video_creation_logs"; ""; "/"; "//"; "a"; "a/b"].
Proof. reflexivity. Qed.

Example recursive_ext_example :
  PyGlob.recursive_ext "d" probe_tree "png"
  = ["d/1.png"; "d/x.png"; "d/a/3.png"; "d/a/b/4.png"; "d/x.png/7.png"] /\
  PyGlob.recursive_ext "d" probe_tree "None" = [].
Proof. split; reflexivity. Qed.

Example camera_folders_example :
  PyGlob.camera_folders "d" probe_cameras
  = ["d/World_Cameras_Camera_01/rgb/"; "d/y/rgb/"].
Proof. reflexivity. Qed.

Example main_upload_example :
  run (main upload_world
         (mkArgs (Some "data") false (Some "png") (Some "out") None None (Some "bkt")))
  = (Ret tt,
     [LogInfo "Total files to copy - 3";
      LogInfo "Copying file data/a.png";
      S3UploadCall "data/a.png" "bkt" "out/a.png";
      LogInfo "Copying file data/b.png";
      S3UploadCall "data/b.png" "bkt" "out/b.png";
      LogInfo "Copying file data/sub/c.png";
      S3UploadCall "data/sub/c.png" "bkt" "out/c.png"]).
Proof. reflexivity. Qed.


(** ** Strings *)

Section StringFacts.

Variable sep : ascii.

Lemma split_length (s : string) (m : nat) :
  List.length (PyStr.split sep s m) = S (Nat.min m (PyStr.count sep s)).
Proof.
  revert m; induction s as [|a s IH]; intros m; simpl.
  - now rewrite Nat.min_0_r.
  - destruct m as [|m]; [reflexivity|].
    destruct (Ascii.eqb a sep); simpl.
    + now rewrite IH.
    + specialize (IH (S m)).
      destruct (PyStr.split sep s (S m)); simpl in *; [discriminate|exact IH].
Qed.

Lemma last_item_cons (x : string) (l : list string) :
  l <> [] -> PyStr.last_item (x :: l) = PyStr.last_item l.
Proof. destruct l; [congruence | reflexivity]. Qed.

Lemma last_item_cons_head (a : ascii) (l : list string) :
  2 <= List.length l ->
  PyStr.last_item (PyStr.cons_head a l) = PyStr.last_item l.
Proof.
  destruct l as [|x [|y l]]; simpl; intros H; try lia; reflexivity.
Qed.

Lemma split_no_sep (s : string) (m : nat) :
  PyStr.count sep s = 0 -> PyStr.split sep s m = [s].
Proof.
  revert m; induction s as [|a s IH]; intros m H; simpl in *; [reflexivity|].
  destruct m; [reflexivity|].
  destruct (Ascii.eqb a sep); [discriminate|].
  now rewrite IH.
Qed.

Lemma last_split_enough (s : string) (m : nat) :
  m <= PyStr.count sep s ->
  PyStr.last_item (PyStr.split sep s m) = Ret (SpecWords.after_nth sep m s).
Proof.
  revert m; induction s as [|a s IH]; intros m H; simpl in *.
  - assert (m = 0) by lia; subst; reflexivity.
  - destruct m as [|m]; [reflexivity|].
    simpl. destruct (Ascii.eqb a sep) eqn:E.
    + rewrite last_item_cons.
      * apply IH; lia.
      * intros C. pose proof (split_length s m) as L. rewrite C in L. discriminate.
    + rewrite last_item_cons_head.
      * rewrite IH by lia. reflexivity.
      * rewrite split_length. simpl in H. lia.
Qed.

Lemma after_last_no_sep (s : string) :
  PyStr.count sep s = 0 -> SpecWords.after_last sep s = s.
Proof.
  destruct s as [|a s]; simpl; [reflexivity|].
  destruct (Ascii.eqb a sep); simpl; [discriminate|].
  intros ->. reflexivity.
Qed.

Lemma last_split_few (s : string) (m : nat) :
  PyStr.count sep s <= m ->
  PyStr.last_item (PyStr.split sep s m) = Ret (SpecWords.after_last sep s).
Proof.
  revert m; induction s as [|a s IH]; intros m H; simpl in *; [reflexivity|].
  destruct (Nat.eqb (PyStr.count sep s) 0) eqn:Z.
  - apply Nat.eqb_eq in Z.
    destruct m as [|m].
    + destruct (Ascii.eqb a sep); [simpl in H; lia | reflexivity].
    + destruct (Ascii.eqb a sep).
      * rewrite (split_no_sep s m Z). reflexivity.
      * rewrite (split_no_sep s (S m) Z). reflexivity.
  - apply Nat.eqb_neq in Z.
    destruct m as [|m]; [destruct (Ascii.eqb a sep); simpl in H; lia|].
    destruct (Ascii.eqb a sep) eqn:E.
    + rewrite last_item_cons.
      * apply IH. simpl in H. lia.
      * intros C. pose proof (split_length s m) as L. rewrite C in L. discriminate.
    + rewrite last_item_cons_head.
      * apply IH. simpl in H. lia.
      * rewrite split_length. lia.
Qed.

(** [after_first] is the rest after a first token without separator. *)
Lemma after_first_token (a rest : string) :
  PyStr.count sep a = 0 ->
  SpecWords.after_first sep (a ++ String sep rest) = rest.
Proof.
  induction a as [|c a IH]; simpl.
  - now rewrite Ascii.eqb_refl.
  - destruct (Ascii.eqb c sep); [discriminate|]. exact IH.
Qed.

End StringFacts.

(** Two tokens without underscore and a rest: the specification's remainder
    after the second underscore is the rest. *)
Lemma after_second_tokens (a b rest : string) :
  PyStr.count "_" a = 0 -> PyStr.count "_" b = 0 ->
  SpecWords.after_second "_" (a ++ "_" ++ b ++ "_" ++ rest) = rest.
Proof.
  intros Ha Hb. unfold SpecWords.after_second.
  change (a ++ "_" ++ b ++ "_" ++ rest) with (a ++ String "_" (b ++ String "_" rest)).
  rewrite after_first_token by exact Ha.
  now apply after_first_token.
Qed.



Lemma camera_identifier_returns (name : string) :
  exists id, camera_identifier name = Ret id.
Proof.
  unfold camera_identifier.
  destruct (le_lt_dec 2 (PyStr.count "_" name)) as [H|H].
  - eexists. apply (last_split_enough "_" name 2 H).
  - eexists. apply last_split_few. lia.
Qed.

(** C9.  The derivation is total: it never raises.  For a name with fewer
    than two underscores it returns what follows the last underscore, and
    the whole name when there is none. *)
Theorem camera_identifier_total (name : string) :
  (exists id, camera_identifier name = Ret id) /\
  (PyStr.count "_" name < 2 ->
   camera_identifier name = Ret (SpecWords.after_last "_" name)) /\
  (PyStr.count "_" name = 0 -> camera_identifier name = Ret name).
Proof.
  assert (Few : PyStr.count "_" name < 2 ->
                camera_identifier name = Ret (SpecWords.after_last "_" name)).
  { intros H. unfold camera_identifier. apply last_split_few. lia. }
  split; [|split].
  - apply camera_identifier_returns.
  - exact Few.
  - intros Z. rewrite Few by lia. now rewrite after_last_no_sep.
Qed.

Lemma camera_identifier_total_witness :
  camera_identifier "World_Camera" = Ret "Camera" /\
  camera_identifier "Camera" = Ret "Camera".
Proof.
  split.
  - apply (camera_identifier_total "World_Camera"). simpl. lia.
  - apply (camera_identifier_total "Camera"). reflexivity.
Defined.

(** ** Paths *)

Lemma append_assoc (a b c : string) : (a ++ b) ++ c = a ++ (b ++ c).
Proof. induction a as [|x a IH]; simpl; [reflexivity | now rewrite IH]. Qed.

Lemma append_nil_r (a : string) : a ++ EmptyString = a.
Proof. induction a as [|x a IH]; simpl; [reflexivity | now rewrite IH]. Qed.

Lemma length_append (a b : string) :
  String.length (a ++ b) = String.length a + String.length b.
Proof. induction a as [|x a IH]; simpl; [reflexivity | now rewrite IH]. Qed.

Lemma append_inv_head (a x y : string) : a ++ x = a ++ y -> x = y.
Proof. induction a as [|c a IH]; simpl; [trivial | intros [= H]; auto]. Qed.

Lemma append_inv_tail (s x y : string) : x ++ s = y ++ s -> x = y.
Proof.
  revert y; induction x as [|a x IH]; intros [|b y] H; simpl in H.
  - reflexivity.
  - apply (f_equal String.length) in H. simpl in H. rewrite length_append in H. lia.
  - apply (f_equal String.length) in H. simpl in H. rewrite length_append in H. lia.
  - injection H as -> H. f_equal. now apply IH.
Qed.

Lemma count_append (c : ascii) (a b : string) :
  PyStr.count c (a ++ b) = PyStr.count c a + PyStr.count c b.
Proof. induction a as [|x a IH]; simpl; [reflexivity | rewrite IH; lia]. Qed.

Lemma append_eqb_empty (a b : string) :
  b <> EmptyString -> String.eqb (a ++ b) EmptyString = false.
Proof.
  intros N. destruct a; simpl; [|reflexivity].
  now apply String.eqb_neq.
Qed.

Lemma startswith_slash (x : string) :
  PyStr.count "/" x = 0 -> PyStr.startswith "/" x = false.
Proof.
  destruct x as [|a x]; [reflexivity|].
  cbn [PyStr.startswith PyStr.count]. rewrite (Ascii.eqb_sym "/" a).
  destruct (Ascii.eqb a "/"); [discriminate | reflexivity].
Qed.

Lemma basename_no_slash (p : string) : PyStr.count "/" (OsPath.basename p) = 0.
Proof.
  induction p as [|a p IH]; simpl; [reflexivity|].
  destruct (Nat.eqb (PyStr.count "/" p) 0) eqn:Z; [|exact IH].
  apply Nat.eqb_eq in Z.
  destruct (Ascii.eqb a "/") eqn:E; simpl; [exact Z | now rewrite E].
Qed.

Lemma basename_plain (x : string) :
  PyStr.count "/" x = 0 -> OsPath.basename x = x.
Proof.
  destruct x as [|a x]; simpl; [reflexivity|].
  destruct (Ascii.eqb a "/"); [discriminate|].
  simpl. intros ->. reflexivity.
Qed.

Lemma basename_after_slash (y x : string) :
  PyStr.count "/" x = 0 -> OsPath.basename (y ++ String "/" x) = x.
Proof.
  intros Hx. induction y as [|a y IH]; simpl.
  - now rewrite Hx.
  - rewrite count_append. simpl.
    replace (Nat.eqb (PyStr.count "/" y + S (PyStr.count "/" x)) 0) with false.
    + exact IH.
    + symmetry. apply Nat.eqb_neq. lia.
Qed.

Lemma head_before_slash (d x : string) :
  PyStr.count "/" x = 0 -> OsPath.head (d ++ String "/" x) = d ++ "/".
Proof.
  intros Hx. induction d as [|a d IH]; simpl.
  - now rewrite Hx.
  - rewrite count_append. simpl.
    replace (Nat.eqb (PyStr.count "/" d + S (PyStr.count "/" x)) 0) with false.
    + now rewrite IH.
    + symmetry. apply Nat.eqb_neq. lia.
Qed.

Lemma rstrip_slash_append (d : string) :
  OsPath.rstrip_slash (d ++ "/") = OsPath.rstrip_slash d.
Proof. induction d as [|a d IH]; simpl; [reflexivity | now rewrite IH]. Qed.

Lemma rstrip_slash_fixed (d : string) :
  PyStr.endswith "/" d = false -> OsPath.rstrip_slash d = d.
Proof.
  induction d as [|a d IH]; [reflexivity|].
  cbn [PyStr.endswith]. intros H. apply orb_false_iff in H as [H1 H2].
  cbn [OsPath.rstrip_slash]. rewrite (IH H2).
  destruct d as [|b d]; [|reflexivity].
  destruct (Ascii.eqb_spec a "/") as [->|N]; [discriminate H1 | reflexivity].
Qed.

Lemma all_slash_append (a b : string) (c : ascii) :
  Ascii.eqb c "/" = false -> OsPath.all_slash (a ++ String c b) = false.
Proof.
  intros N. induction a as [|x a IH]; simpl.
  - now rewrite N.
  - rewrite IH. apply andb_false_r.
Qed.

(** The log directory [os.path.join(curr_dir, "video_creation_logs")]. *)
Lemma logs_dir_shape (cwd : string) :
  exists pre, OsPath.join cwd "video_creation_logs" = pre ++ "video_creation_logs".
Proof.
  unfold OsPath.join. cbn [PyStr.startswith Ascii.eqb Bool.eqb andb].
  destruct (String.eqb cwd EmptyString || PyStr.endswith "/" cwd).
  - now exists cwd.
  - exists (cwd ++ "/"). now rewrite append_assoc.
Qed.

Lemma endswith_slash_logs (pre : string) :
  PyStr.endswith "/" (pre ++ "video_creation_logs") = false.
Proof.
  induction pre as [|a pre IH]; [reflexivity|].
  cbn [append PyStr.endswith]. rewrite IH, orb_false_r.
  cbn [String.eqb]. destruct (Ascii.eqb "/" a); [|reflexivity].
  destruct pre; reflexivity.
Qed.

Lemma log_file_path_plain (cwd name : string) :
  PyStr.count "/" name = 0 ->
  log_file_path cwd name
  = OsPath.join cwd "video_creation_logs" ++ String "/" (name ++ ".log").
Proof.
  intros Hn. unfold log_file_path.
  destruct (logs_dir_shape cwd) as (pre & ->).
  unfold OsPath.join at 1.
  rewrite startswith_slash by (rewrite count_append, Hn; reflexivity).
  rewrite append_eqb_empty by discriminate.
  now rewrite endswith_slash_logs.
Qed.

(** Every log file lies directly in the log directory. *)
Lemma dirname_log_file_path (cwd name : string) :
  PyStr.count "/" name = 0 ->
  OsPath.dirname (log_file_path cwd name) = OsPath.join cwd "video_creation_logs".
Proof.
  intros Hn. rewrite (log_file_path_plain cwd name Hn).
  destruct (logs_dir_shape cwd) as (pre & ->).
  unfold OsPath.dirname.
  rewrite head_before_slash by (rewrite count_append, Hn; reflexivity).
  rewrite append_eqb_empty by discriminate.
  assert (A : OsPath.all_slash ((pre ++ "video_creation_logs") ++ "/") = false).
  { rewrite append_assoc.
    exact (all_slash_append pre ("ideo_creation_logs" ++ "/") "v" eq_refl). }
  rewrite A. cbn [negb andb]. rewrite rstrip_slash_append.
  apply rstrip_slash_fixed, endswith_slash_logs.
Qed.

(** Different identifiers have different log files. *)
Lemma log_file_path_inj (cwd x y : string) :
  PyStr.count "/" x = 0 -> PyStr.count "/" y = 0 ->
  log_file_path cwd x = log_file_path cwd y -> x = y.
Proof.
  intros Hx Hy. rewrite (log_file_path_plain cwd x Hx), (log_file_path_plain cwd y Hy).
  intros H. apply append_inv_head in H. injection H as H.
  now apply append_inv_tail in H.
Qed.

Lemma after_first_count (c sep : ascii) (s : string) :
  PyStr.count c (SpecWords.after_first sep s) <= PyStr.count c s.
Proof.
  induction s as [|a s IH]; simpl; [lia|].
  destruct (Ascii.eqb a sep); lia.
Qed.

Lemma after_nth_count (c sep : ascii) (n : nat) (s : string) :
  PyStr.count c (SpecWords.after_nth sep n s) <= PyStr.count c s.
Proof.
  revert s; induction n as [|n IH]; intros s; simpl; [lia|].
  pose proof (IH (SpecWords.after_first sep s)).
  pose proof (after_first_count c sep s). lia.
Qed.

Lemma after_last_count (c sep : ascii) (s : string) :
  PyStr.count c (SpecWords.after_last sep s) <= PyStr.count c s.
Proof.
  induction s as [|a s IH]; simpl; [lia|].
  destruct (Nat.eqb (PyStr.count sep s) 0); [|lia].
  destruct (Ascii.eqb a sep); simpl; lia.
Qed.

(** The identifier is a piece of the name: it holds no slash when the name
    holds none. *)
Lemma camera_identifier_count (c : ascii) (name id : string) :
  camera_identifier name = Ret id -> PyStr.count c id <= PyStr.count c name.
Proof.
  unfold camera_identifier.
  destruct (le_lt_dec 2 (PyStr.count "_" name)) as [H|H].
  - rewrite (last_split_enough "_" name 2 H). intros [= <-]. apply (after_nth_count c "_" 2 name).
  - rewrite (last_split_few "_" name 2) by lia. intros [= <-]. apply after_last_count.
Qed.

(* ================================================================== *)
(** ** upload_file *)

Lemma run_bind_Ret {A B} (m : M A) (k : A -> M B) (h : list event)
    (a : A) (d : list event) (r : result B) (d' : list event) :
  m h = (Ret a, d) -> k a (h ++ d)%list = (r, d') ->
  bind m k h = (r, (d ++ d')%list).
Proof. intros E1 E2. unfold bind. now rewrite E1, E2. Qed.

Lemma run_bind_Raise {A B} (m : M A) (k : A -> M B) (h : list event)
    (e : exn) (d : list event) :
  m h = (Raise e, d) -> bind m k h = (Raise e, d).
Proof. intros E1. unfold bind. now rewrite E1. Qed.

Lemma run_try_Ret {A} (m : M A) (c : exn -> bool) (k : exn -> M A)
    (h : list event) (a : A) (d : list event) :
  m h = (Ret a, d) -> try_except m c k h = (Ret a, d).
Proof. intros E. unfold try_except. now rewrite E. Qed.

Lemma run_try_caught {A} (m : M A) (c : exn -> bool) (k : exn -> M A)
    (h : list event) (e : exn) (d : list event) (r : result A) (d' : list event) :
  m h = (Raise e, d) -> c e = true -> k e (h ++ d)%list = (r, d') ->
  try_except m c k h = (r, (d ++ d')%list).
Proof. intros E C E2. unfold try_except. now rewrite E, C, E2. Qed.

Ltac unfold_m :=
  unfold bind, ret, lift, emit, attempt, try_except, logging_info,
    logging_error, boto3_client, s3_client_upload_file in *.

(** All that [upload_file] can do, case by case. *)
Lemma upload_file_eq (w : World) (file_name bucket : string)
    (object_name : option string) (h : list event) :
  upload_file w file_name bucket object_name h =
  let key := object_key file_name object_name in
  match boto3_client_raises w h with
  | Some e => (Raise e, [])
  | None =>
      match s3_upload_raises w h file_name bucket key with
      | None => (Ret true, [S3UploadCall file_name bucket key])
      | Some e =>
          if is_ClientError e
          then (Ret false, [S3UploadCall file_name bucket key; LogError (exn_str e)])
          else (Raise e, [S3UploadCall file_name bucket key])
      end
  end.
Proof.
  unfold upload_file, object_key. unfold_m. cbv zeta.
  destruct (boto3_client_raises w h); [reflexivity|].
  rewrite app_nil_r.
  destruct (s3_upload_raises w h file_name bucket _) as [e|]; [|reflexivity].
  destruct (is_ClientError e); reflexivity.
Qed.

(** C1, as amended.  With the client created, [upload_file] logs the error
    and returns [False] when the upload call raises [ClientError]; an
    exception of any other class is not caught and reaches the caller; and
    it returns [True] exactly when the upload call completes without
    error. *)
Theorem upload_file_outcomes (w : World) (file_name bucket : string)
    (object_name : option string) (h : list event) :
  boto3_client_raises w h = None ->
  let key := object_key file_name object_name in
  let call := S3UploadCall file_name bucket key in
  (forall msg,
      s3_upload_raises w h file_name bucket key = Some (ClientError msg) ->
      upload_file w file_name bucket object_name h
      = (Ret false, [call; LogError msg])) /\
  (forall e,
      s3_upload_raises w h file_name bucket key = Some e ->
      is_ClientError e = false ->
      upload_file w file_name bucket object_name h = (Raise e, [call])) /\
  (fst (upload_file w file_name bucket object_name h) = Ret true <->
   s3_upload_raises w h file_name bucket key = None).
Proof.
  intros Hc key call. subst call. rewrite upload_file_eq. cbv zeta.
  fold key. rewrite Hc.
  repeat split.
  - intros msg ->. reflexivity.
  - intros e -> ->. reflexivity.
  - destruct (s3_upload_raises w h file_name bucket key) as [e|]; [|reflexivity].
    destruct (is_ClientError e); discriminate.
  - intros ->. reflexivity.
Qed.

Lemma upload_file_outcomes_witness :
  run (upload_file denied_world "data/a.png" "bkt" None)
  = (Ret false, [S3UploadCall "data/a.png" "bkt" "a.png";
                 LogError "An error occurred (AccessDenied)"]).
Proof.
  apply (proj1 (upload_file_outcomes denied_world "data/a.png" "bkt" None []
                  eq_refl)).
  reflexivity.
Defined.

(** C1 as stated fails: it is not so that whatever error the storage client
    raises, [upload_file] logs it and returns [False].  When the endpoint
    cannot be reached the exception leaves [upload_file]. *)
Lemma upload_file_propagates_other_errors :
  ~ (forall (w : World) (file_name bucket : string) (object_name : option string)
            (h : list event) (e : exn),
        s3_upload_raises w h file_name bucket (object_key file_name object_name)
        = Some e ->
        upload_file w file_name bucket object_name h
        = (Ret false,
           [S3UploadCall file_name bucket (object_key file_name object_name);
            LogError (exn_str e)])).
Proof.
  intros C.
  specialize (C offline_world "data/a.png" "bkt" None [] offline eq_refl).
  discriminate C.
Qed.

(* ================================================================== *)
(** ** Invalid source directories *)

Definition type_error_of_isdir : exn :=
  TypeError "stat: path should be string, bytes, os.PathLike or integer, not NoneType".

(** C2, the failing case.  With the build flag set and no source directory
    given, [main] calls [build_videos(None)]; [os.path.isdir(None)] raises
    [TypeError] before anything is logged, nothing catches it, and the run
    ends there, whatever the other options and the world are. *)
Theorem main_build_without_source_directory (w : World)
    (format_to_copy destination_directory source_file destination_file
       bucket : option string) (h : list event) :
  main w (mkArgs None true format_to_copy destination_directory source_file
                 destination_file bucket) h
  = (Raise type_error_of_isdir, []).
Proof. reflexivity. Qed.

(** A directory that is named but does not exist: [build_videos] logs the
    error and returns. *)
Lemma build_videos_not_a_directory (w : World) (sd : string) (h : list event) :
  isdir w sd = false ->
  build_videos w (Some sd) h = (Ret tt, [LogError invalid_source_directory]).
Proof.
  intros H. unfold build_videos, os_path_isdir. unfold_m. rewrite H. reflexivity.
Qed.

Lemma truthy_Some (s : string) : s <> EmptyString -> PyStr.truthy (Some s) = true.
Proof.
  intros H. simpl. destruct (String.eqb_spec s EmptyString); [contradiction|reflexivity].
Qed.

Lemma directory_upload_not_a_directory (w : World) (sd bucket : string)
    (format_to_copy destination_directory : option string) (h : list event) :
  sd <> EmptyString -> isdir w sd = false ->
  directory_upload w (Some sd) format_to_copy destination_directory bucket h
  = (Ret tt, [LogError invalid_source_directory]).
Proof.
  intros Hne H. unfold directory_upload. rewrite (truthy_Some sd Hne).
  unfold os_path_isdir. unfold_m. rewrite H. reflexivity.
Qed.



(* ================================================================== *)
(** ** Directory upload *)

Lemma s3_calls_app (a b : list event) :
  s3_calls (a ++ b) = (s3_calls a ++ s3_calls b)%list.
Proof. unfold s3_calls. apply flat_map_app. Qed.

Lemma append_nonempty (a b : string) :
  a <> EmptyString -> String.eqb (a ++ b) EmptyString = false.
Proof. destruct a; [congruence | reflexivity]. Qed.

(** The key the client receives for a file of a directory upload. *)
Lemma object_key_of_directory (dd : option string) (file : string) :
  object_key file
    (if PyStr.truthy dd
     then Some (PyStr.format dd ++ "/" ++ OsPath.basename file) else None)
  = directory_key dd file.
Proof.
  unfold object_key, directory_key.
  destruct dd as [d|]; simpl; [|reflexivity].
  destruct (String.eqb_spec d EmptyString) as [->|N]; simpl; [reflexivity|].
  now rewrite (append_nonempty d _ N).
Qed.

Lemma directory_key_None (file : string) :
  directory_key None file = OsPath.basename file.
Proof. reflexivity. Qed.

Lemma directory_key_Some (d file : string) :
  d <> EmptyString -> directory_key (Some d) file = d ++ "/" ++ OsPath.basename file.
Proof. intros N. unfold directory_key. now rewrite (truthy_Some d N). Qed.

Section UploadLoop.

Variable w : World.
Hypothesis client_created : forall h, boto3_client_raises w h = None.
Hypothesis only_client_errors :
  forall h f b k e, s3_upload_raises w h f b k = Some e -> is_ClientError e = true.

Lemma upload_file_returns (file bkt : string) (key : option string) (h : list event) :
  exists r d,
    upload_file w file bkt key h = (Ret r, d) /\
    s3_calls d = [(file, bkt, object_key file key)].
Proof.
  rewrite upload_file_eq. cbv zeta. rewrite client_created.
  destruct (s3_upload_raises w h file bkt (object_key file key)) as [e|] eqn:E.
  - rewrite (only_client_errors _ _ _ _ _ E). do 2 eexists. split; reflexivity.
  - do 2 eexists. split; reflexivity.
Qed.

Lemma upload_each_calls (files : list string) (bkt : string) (dd : option string) :
  forall h, exists d,
    upload_each w files bkt dd h = (Ret tt, d) /\
    s3_calls d = map (fun file => (file, bkt, directory_key dd file)) files.
Proof.
  induction files as [|file rest IH]; intros h.
  - exists []. split; reflexivity.
  - cbn [upload_each map].
    set (line := LogInfo ("Copying file " ++ file)).
    set (key := if PyStr.truthy dd
                then Some (PyStr.format dd ++ "/" ++ OsPath.basename file)
                else None).
    destruct (upload_file_returns file bkt key (h ++ [line])) as (r & d1 & E1 & C1).
    destruct (IH ((h ++ [line]) ++ d1)%list) as (d2 & E2 & C2).
    exists ([line] ++ (d1 ++ d2))%list. split.
    + eapply run_bind_Ret; [reflexivity|].
      eapply run_bind_Ret; [exact E1 | exact E2].
    + rewrite !s3_calls_app, C1, C2. subst key.
      rewrite object_key_of_directory. reflexivity.
Qed.

End UploadLoop.

(** C5, as amended.  For an existing source directory, if creating the
    client never fails and the uploads raise nothing but [ClientError], the
    directory upload ends normally and has called the client's upload
    exactly once for each file that [glob] selected, in that order, under
    the key that is the file's base name when no destination directory is
    given and the destination directory, a slash and the base name when one
    is given. *)
Theorem directory_upload_once_per_file (w : World) (sd bkt : string)
    (fmt dd : option string) (h : list event) :
  sd <> EmptyString -> isdir w sd = true ->
  (forall h', boto3_client_raises w h' = None) ->
  (forall h' f b k e, s3_upload_raises w h' f b k = Some e -> is_ClientError e = true) ->
  exists d,
    directory_upload w (Some sd) fmt dd bkt h = (Ret tt, d) /\
    s3_calls d
    = map (fun file => (file, bkt, directory_key dd file))
          (resolve_files w (Some sd) fmt) /\
    (dd = None ->
     s3_calls d
     = map (fun file => (file, bkt, OsPath.basename file))
           (resolve_files w (Some sd) fmt)) /\
    (forall dir, dd = Some dir -> dir <> EmptyString ->
     s3_calls d
     = map (fun file => (file, bkt, dir ++ "/" ++ OsPath.basename file))
           (resolve_files w (Some sd) fmt)).
Proof.
  intros Hne Hdir Hc Hs.
  set (files := resolve_files w (Some sd) fmt).
  set (line := LogInfo ("Total files to copy - " ++ PyStr.of_nat (List.length files))).
  destruct (upload_each_calls w Hc Hs files bkt dd ((h ++ []) ++ [line])%list)
    as (d & E & C).
  exists ([] ++ ([line] ++ d))%list. split; [|split; [|split]].
  - unfold directory_upload. rewrite (truthy_Some sd Hne).
    eapply run_bind_Ret; [reflexivity|]. cbn beta. rewrite Hdir.
    eapply run_bind_Ret; [reflexivity|]. exact E.
  - exact C.
  - intros ->. exact C.
  - intros dir -> N. change (s3_calls ([] ++ [line] ++ d)) with (s3_calls d).
    rewrite C. apply map_ext. intros file.
    now rewrite (directory_key_Some dir file N).
Qed.

Lemma directory_upload_once_per_file_witness :
  resolve_files upload_world (Some "data") (Some "png")
  = ["data/a.png"; "data/b.png"; "data/sub/c.png"] /\
  (exists d,
      run (directory_upload upload_world (Some "data") (Some "png") None "bkt")
      = (Ret tt, d) /\
      s3_calls d = [("data/a.png", "bkt", "a.png"); ("data/b.png", "bkt", "b.png");
                    ("data/sub/c.png", "bkt", "c.png")]) /\
  (exists d,
      run (directory_upload denied_world (Some "data") (Some "png") (Some "out") "bkt")
      = (Ret tt, d) /\
      s3_calls d = [("data/a.png", "bkt", "out/a.png");
                    ("data/b.png", "bkt", "out/b.png");
                    ("data/sub/c.png", "bkt", "out/c.png")]).
Proof.
  assert (A : "data" <> EmptyString) by discriminate.
  split; [reflexivity|]. split.
  - destruct (directory_upload_once_per_file upload_world "data" "bkt"
                (Some "png") None [] A eq_refl (fun _ => eq_refl))
      as (d & E & C & _).
    + intros h' f b k e X. discriminate X.
    + exists d. split; [exact E | exact C].
  - destruct (directory_upload_once_per_file denied_world "data" "bkt"
                (Some "png") (Some "out") [] A eq_refl (fun _ => eq_refl))
      as (d & E & C & _).
    + intros h' f b k e X. injection X as <-. reflexivity.
    + exists d. split; [exact E | exact C].
Defined.

(** C5 as stated fails: three files match, and the directory upload calls
    the upload once, because the exception of the first call is not a
    [ClientError] and ends the loop. *)
Lemma directory_upload_stops_at_other_error :
  List.length (resolve_files offline_world (Some "data") (Some "png")) = 3 /\
  run (directory_upload offline_world (Some "data") (Some "png") None "bkt")
  = (Raise offline,
     [LogInfo "Total files to copy - 3"; LogInfo "Copying file data/a.png";
      S3UploadCall "data/a.png" "bkt" "a.png"]) /\
  List.length
    (s3_calls (snd (run (directory_upload offline_world (Some "data") (Some "png")
                           None "bkt")))) = 1.
Proof. repeat split. Qed.

(* ================================================================== *)
(** ** build_videos *)

Lemma identifier_of_eq (w : World) (folder : string) :
  camera_identifier (camera_folder_name w folder) = Ret (identifier_of w folder).
Proof.
  unfold identifier_of.
  destruct (camera_identifier_returns (camera_folder_name w folder)) as (id & ->).
  reflexivity.
Qed.

Lemma wait_each_eq (ps : list process) (h : list event) :
  wait_each ps h = (Ret tt, map Waited ps).
Proof.
  revert h; induction ps as [|p ps IH]; intros h; [reflexivity|].
  cbn [wait_each map].
  change (Waited p :: map Waited ps) with ([Waited p] ++ map Waited ps)%list.
  eapply run_bind_Ret; [reflexivity | apply IH].
Qed.

Section LaunchLoop.

Variable w : World.
Hypothesis makedirs_ok : forall h p, makedirs_raises w h p = None.
Hypothesis open_ok : forall h p, open_raises w h p = None.

Lemma launch_each_ok (folders : list string) :
  Forall (launches w) folders ->
  forall acc h,
    launch_each w (getcwd w) folders acc h
    = (Ret (acc ++ map (job_process w) folders)%list,
       flat_map (job_events w) folders).
Proof.
  induction 1 as [|f fs Hf Hfs IH]; intros acc h.
  - cbn [launch_each map flat_map]. now rewrite app_nil_r.
  - cbn [launch_each map flat_map].
    unfold bind at 1. unfold lift at 1. rewrite identifier_of_eq.
    unfold os_makedirs, open_w, Popen, attempt, bind, ret.
    rewrite makedirs_ok, open_ok, Hf, IH.
    unfold job_events, job_process. cbn [app].
    now rewrite <- app_assoc.
Qed.


Variable sd : string.
Hypothesis sd_exists : isdir w sd = true.

(** Every launch succeeds: all jobs are launched, then all are waited
    for, in the order of launch. *)
Lemma build_videos_all_launched (h : list event) :
  let folders := glob_glob w (sd ++ "/*/rgb/") false in
  Forall (launches w) folders ->
  build_videos w (Some sd) h
  = (Ret tt,
     ([LogInfo (started_msg (Some sd) (getcwd w))]
      ++ flat_map (job_events w) folders
      ++ map Waited (map (job_process w) folders)
      ++ [LogInfo "Finished creating videos from images."])%list).
Proof.
  intros folders Hall. unfold build_videos.
  refine (run_bind_Ret _ _ _ (isdir w sd) [] _ _ eq_refl _).
  cbn beta. rewrite sd_exists. cbv zeta.
  eapply run_bind_Ret; [reflexivity|].
  apply run_try_Ret.
  eapply run_bind_Ret; [apply (launch_each_ok _ Hall)|].
  eapply run_bind_Ret; [apply wait_each_eq|]. reflexivity.
Qed.


End LaunchLoop.

Lemma identifier_no_slash (w : World) (folder : string) :
  PyStr.count "/" (identifier_of w folder) = 0.
Proof.
  pose proof (camera_identifier_count "/" _ _ (identifier_of_eq w folder)) as H.
  unfold camera_folder_name in H. rewrite basename_no_slash in H. lia.
Qed.

Lemma launched_app (a b : list event) :
  launched (a ++ b) = (launched a ++ launched b)%list.
Proof. apply flat_map_app. Qed.

Lemma opened_app (a b : list event) :
  opened (a ++ b) = (opened a ++ opened b)%list.
Proof. apply flat_map_app. Qed.

Lemma launched_jobs (w : World) (folders : list string) :
  launched (flat_map (job_events w) folders) = map (job_process w) folders.
Proof.
  induction folders as [|f fs IH]; [reflexivity|].
  cbn [flat_map map]. rewrite launched_app, IH. reflexivity.
Qed.

Lemma opened_jobs (w : World) (folders : list string) :
  opened (flat_map (job_events w) folders)
  = map (fun f => log_file_path (getcwd w) (identifier_of w f)) folders.
Proof.
  induction folders as [|f fs IH]; [reflexivity|].
  cbn [flat_map map]. rewrite opened_app, IH. reflexivity.
Qed.

Lemma launched_waits (ps : list process) : launched (map Waited ps) = [].
Proof. induction ps; [reflexivity | assumption]. Qed.

Lemma opened_waits (ps : list process) : opened (map Waited ps) = [].
Proof. induction ps; [reflexivity | assumption]. Qed.


(** The number of distinct images of a list under a function that is
    injective on a class the list lies in. *)
Lemma distinct_map_length (g : string -> string) (ok : string -> Prop)
    (l : list string) :
  (forall x y, ok x -> ok y -> g x = g y -> x = y) ->
  Forall ok l ->
  List.length (distinct (map g l)) = List.length (distinct l).
Proof.
  intros Inj. unfold distinct. induction 1 as [|x l Hx Hl IH]; [reflexivity|].
  cbn [map nodup].
  destruct (in_dec string_dec x l) as [I|I];
    destruct (in_dec string_dec (g x) (map g l)) as [J|J].
  - exact IH.
  - exfalso. apply J. now apply in_map.
  - exfalso. apply I. apply in_map_iff in J as (y & E & Hy).
    rewrite Forall_forall in Hl.
    rewrite (Inj x y Hx (Hl y Hy) (eq_sym E)). exact Hy.
  - simpl. now rewrite IH.
Qed.

(** C3, as amended.  For an existing source directory in which [glob] finds
    [N] folders, and when no step of a job fails, one build run launches
    exactly [N] encoder processes, one per folder, and opens exactly [N] log
    files, all in [<cwd>/video_creation_logs]; this holds for whatever
    order [glob] lists the folders in.  The log files are as many distinct
    files as there are distinct camera identifiers among the folders: [N]
    when the identifiers differ pairwise. *)
Theorem build_videos_one_job_per_folder (w : World) (sd : string) (N : nat)
    (h : list event) :
  isdir w sd = true ->
  (forall h' p, makedirs_raises w h' p = None) ->
  (forall h' p, open_raises w h' p = None) ->
  let folders := glob_glob w (sd ++ "/*/rgb/") false in
  List.length folders = N ->
  Forall (launches w) folders ->
  exists t,
    build_videos w (Some sd) h = (Ret tt, t) /\
    launched t = map (job_process w) folders /\
    List.length (launched t) = N /\
    opened t = map (fun f => log_file_path (getcwd w) (identifier_of w f)) folders /\
    List.length (opened t) = N /\
    Forall (fun p => OsPath.dirname p = OsPath.join (getcwd w) "video_creation_logs")
           (opened t) /\
    List.length (distinct (opened t))
    = List.length (distinct (map (identifier_of w) folders)) /\
    (NoDup (map (identifier_of w) folders) ->
     List.length (distinct (opened t)) = N).
Proof.
  intros Hdir Hm Ho folders HN Hall.
  eexists. split; [apply (build_videos_all_launched w Hm Ho sd Hdir h Hall)|].
  fold folders.
  assert (L : launched
                ([LogInfo (started_msg (Some sd) (getcwd w))]
                 ++ flat_map (job_events w) folders
                 ++ map Waited (map (job_process w) folders)
                 ++ [LogInfo "Finished creating videos from images."])
              = map (job_process w) folders).
  { rewrite !launched_app, launched_jobs, launched_waits. cbn [launched flat_map app].
    now rewrite app_nil_r. }
  assert (O : opened
                ([LogInfo (started_msg (Some sd) (getcwd w))]
                 ++ flat_map (job_events w) folders
                 ++ map Waited (map (job_process w) folders)
                 ++ [LogInfo "Finished creating videos from images."])
              = map (fun f => log_file_path (getcwd w) (identifier_of w f)) folders).
  { rewrite !opened_app, opened_jobs, opened_waits. cbn [opened flat_map app].
    now rewrite app_nil_r. }
  rewrite L, O.
  assert (D : List.length
                (distinct (map (fun f => log_file_path (getcwd w) (identifier_of w f))
                               folders))
              = List.length (distinct (map (identifier_of w) folders))).
  { rewrite <- (map_map (identifier_of w) (log_file_path (getcwd w))).
    apply (distinct_map_length _ (fun x => PyStr.count "/" x = 0)).
    - intros x y. apply log_file_path_inj.
    - apply Forall_forall. intros x Hx.
      apply in_map_iff in Hx as (f & <- & _). apply identifier_no_slash. }
  repeat split.
  - now rewrite length_map.
  - now rewrite length_map.
  - apply Forall_forall. intros p Hp. apply in_map_iff in Hp as (f & <- & _).
    apply dirname_log_file_path, identifier_no_slash.
  - exact D.
  - intros ND. rewrite D. unfold distinct.
    rewrite (nodup_fixed_point string_dec ND). now rewrite length_map.
Qed.

Lemma build_videos_one_job_per_folder_witness :
  glob_glob camera_world "data/*/rgb/" false
  = ["data/World_Cameras_Camera_01/rgb/"; "data/World_Cameras_Camera_02/rgb/";
     "data/World_Cameras_Camera_03/rgb/"] /\
  exists t,
    run (build_videos camera_world (Some "data")) = (Ret tt, t) /\
    List.length (launched t) = 3 /\
    opened t = ["/home/u/video_creation_logs/Camera_01.log";
                "/home/u/video_creation_logs/Camera_02.log";
                "/home/u/video_creation_logs/Camera_03.log"] /\
    List.length (distinct (opened t)) = 3.
Proof.
  split; [reflexivity|].
  destruct (build_videos_one_job_per_folder camera_world "data" 3 []
              eq_refl (fun _ _ => eq_refl) (fun _ _ => eq_refl) eq_refl)
    as (t & E & _ & L & O & _ & _ & _ & D).
  - apply Forall_forall. intros f _ h'. reflexivity.
  - exists t. split; [exact E|]. split; [exact L|]. split; [exact O|].
    apply D. vm_compute.
    repeat constructor; simpl; intuition discriminate.
Defined.

(** C3 as stated fails: two folders match, two processes are launched, and
    both jobs open the same log file, so one log file is created, not
    two. *)
Lemma build_videos_shared_log_file :
  List.length (glob_glob same_identifier_world "data/*/rgb/" false) = 2 /\
  List.length (launched (snd (run (build_videos same_identifier_world (Some "data")))))
  = 2 /\
  opened (snd (run (build_videos same_identifier_world (Some "data"))))
  = ["/home/u/video_creation_logs/Camera_01.log";
     "/home/u/video_creation_logs/Camera_01.log"] /\
  List.length
    (distinct (opened (snd (run (build_videos same_identifier_world (Some "data"))))))
  = 1.
Proof. repeat split. Qed.

Lemma logged_errors_app (a b : list event) :
  logged_errors (a ++ b) = (logged_errors a ++ logged_errors b)%list.
Proof. apply flat_map_app. Qed.




(* ================================================================== *)
(** ** The files glob selects *)

Section GlobFacts.

Import PyGlob.

Lemma node_nested_ind (P : node -> Prop) :
  P File ->
  (forall entries, Forall (fun xc => P (snd xc)) entries -> P (Dir entries)) ->
  forall n, P n.
Proof.
  intros HF HD.
  refine (fix IH (n : node) : P n :=
            match n with
            | File => HF
            | Dir entries =>
                HD entries
                   ((fix each (l : list (string * node))
                      : Forall (fun xc => P (snd xc)) l :=
                       match l with
                       | [] => Forall_nil _
                       | xc :: l' => Forall_cons xc (IH (snd xc)) (each l')
                       end) entries)
            end).
Qed.

Lemma rlistdir_Dir (entries : list (string * node)) :
  rlistdir (Dir entries) = flat_map rlistdir_entry entries.
Proof.
  induction entries as [|[x c] l IH]; [reflexivity|].
  cbn [flat_map]. rewrite <- IH. destruct c; reflexivity.
Qed.

Lemma names_ok_Dir (entries : list (string * node)) :
  names_ok (Dir entries) = true <->
  Forall (fun xc => name_ok (fst xc) = true /\ names_ok (snd xc) = true) entries.
Proof.
  induction entries as [|[x c] l IH].
  - split; [constructor | reflexivity].
  - change (names_ok (Dir ((x, c) :: l)))
      with (name_ok x && names_ok c && names_ok (Dir l)).
    rewrite !andb_true_iff, IH. split.
    + intros [[A B] C]. constructor; [split|]; assumption.
    + intros H. inversion H as [|? ? [A B] C]; subst. auto.
Qed.

Lemma names_ok_entry (entries : list (string * node)) (x : string) (c : node) :
  names_ok (Dir entries) = true -> In (x, c) entries ->
  name_ok x = true /\ names_ok c = true.
Proof.
  intros H I. rewrite names_ok_Dir, Forall_forall in H. exact (H _ I).
Qed.

Lemma reaches_names_ok (entries : list (string * node)) (ds : list string)
    (sub : list (string * node)) :
  reaches entries ds sub -> names_ok (Dir entries) = true ->
  Forall named ds /\ names_ok (Dir sub) = true.
Proof.
  induction 1 as [|entries d s ds sub' I R IH]; intros H; [split; [constructor|exact H]|].
  destruct (names_ok_entry _ _ _ H I) as [A B].
  destruct (IH B) as [C D]. split; [constructor|]; assumption.
Qed.

Lemma name_ok_parts (x : string) :
  name_ok x = true -> x <> EmptyString /\ PyStr.count "/" x = 0.
Proof.
  unfold name_ok. rewrite andb_true_iff, negb_true_iff, Nat.eqb_eq.
  intros [A B]. split; [now apply String.eqb_neq | exact B].
Qed.

Lemma endswith_no_slash (x : string) :
  PyStr.count "/" x = 0 -> PyStr.endswith "/" x = false.
Proof.
  induction x as [|a x IH]; [reflexivity|].
  cbn [PyStr.count PyStr.endswith String.eqb]. intros H.
  rewrite (Ascii.eqb_sym "/" a).
  destruct (Ascii.eqb a "/"); [discriminate|]. apply IH. exact H.
Qed.

Lemma endswith_slash_app (a x : string) :
  x <> EmptyString -> PyStr.count "/" x = 0 -> PyStr.endswith "/" (a ++ x) = false.
Proof.
  intros N Z. induction a as [|c a IH]; [now apply endswith_no_slash|].
  cbn [append PyStr.endswith String.eqb]. rewrite IH, orb_false_r.
  destruct (Ascii.eqb "/" c); [|reflexivity].
  destruct a; [destruct x; [contradiction|]|]; reflexivity.
Qed.

Lemma endswith_app_slash (a : string) : PyStr.endswith "/" (a ++ "/") = true.
Proof.
  induction a as [|c a IH]; [reflexivity|].
  cbn [append PyStr.endswith]. rewrite IH. apply orb_true_r.
Qed.

Lemma startswith_slash_app (x z : string) :
  name_ok x = true -> PyStr.startswith "/" (x ++ z) = false.
Proof.
  intros H. destruct (name_ok_parts x H) as [N Z].
  destruct x as [|c x]; [contradiction|].
  cbn [append PyStr.startswith]. cbn [PyStr.count] in Z.
  rewrite (Ascii.eqb_sym "/" c).
  destruct (Ascii.eqb c "/"); [discriminate | reflexivity].
Qed.

Lemma join_plain (a y : string) :
  a <> EmptyString -> PyStr.endswith "/" a = false ->
  PyStr.startswith "/" y = false ->
  OsPath.join a y = a ++ "/" ++ y.
Proof.
  intros N E S. unfold OsPath.join. rewrite S, E.
  apply String.eqb_neq in N. now rewrite N.
Qed.

Lemma join_after_slash (a y : string) :
  PyStr.startswith "/" y = false -> OsPath.join (a ++ "/") y = a ++ "/" ++ y.
Proof.
  intros S. unfold OsPath.join.
  rewrite S, endswith_app_slash, orb_true_r. apply append_assoc.
Qed.

Lemma concat_snoc (ds : list string) (x : string) :
  ds <> [] -> String.concat "/" (ds ++ [x]) = String.concat "/" ds ++ "/" ++ x.
Proof.
  induction ds as [|d ds IH]; [congruence|]. intros _.
  destruct ds as [|d' ds]; [reflexivity|].
  change (String.concat "/" ((d :: d' :: ds) ++ [x]))
    with (d ++ "/" ++ String.concat "/" ((d' :: ds) ++ [x])).
  rewrite IH by discriminate.
  change (String.concat "/" (d :: d' :: ds))
    with (d ++ "/" ++ String.concat "/" (d' :: ds)).
  now rewrite !append_assoc.
Qed.

Lemma concat_startswith (ds : list string) :
  Forall named ds ->
  PyStr.startswith "/" (String.concat "/" ds) = false.
Proof.
  intros [|d l Hd Hl]; [reflexivity|].
  destruct l as [|d' l].
  - cbn [String.concat].
    pose proof (startswith_slash_app d EmptyString Hd) as S.
    now rewrite append_nil_r in S.
  - change (String.concat "/" (d :: d' :: l))
      with (d ++ "/" ++ String.concat "/" (d' :: l)).
    now apply startswith_slash_app.
Qed.

Lemma concat_endswith (pre : string) (ds : list string) :
  ds <> [] -> Forall named ds ->
  PyStr.endswith "/" (pre ++ String.concat "/" ds) = false.
Proof.
  intros N H. revert pre. induction H as [|d l Hd Hl IH]; [congruence|]. intros pre.
  destruct (name_ok_parts d Hd) as [Nd Zd].
  destruct l as [|d' l].
  - cbn [String.concat]. now apply endswith_slash_app.
  - change (String.concat "/" (d :: d' :: l))
      with (d ++ "/" ++ String.concat "/" (d' :: l)).
    rewrite <- !append_assoc. apply IH. discriminate.
Qed.



Lemma join_names (d : string) (ds : list string) :
  name_ok d = true -> ds <> [] -> Forall named ds ->
  OsPath.join d (String.concat "/" ds) = String.concat "/" (d :: ds).
Proof.
  intros Hd N H. destruct (name_ok_parts d Hd) as [Nd Zd].
  rewrite join_plain;
    [| exact Nd | now apply endswith_no_slash | now apply concat_startswith].
  destruct ds; [congruence | reflexivity].
Qed.

(** Every path [rlistdir] lists names a directory below, through
    directories that are not hidden. *)
Lemma rlistdir_sound (n : node) :
  names_ok n = true ->
  forall rel sub, In (rel, sub) (rlistdir n) ->
  exists ds, ds <> [] /\ reaches (entries_of n) ds sub /\
             Forall visible ds /\ rel = String.concat "/" ds.
Proof.
  induction n as [|entries IH] using node_nested_ind; intros OK rel sub I;
    [destruct I|].
  rewrite rlistdir_Dir in I. apply in_flat_map in I as ([x c] & Ix & I).
  rewrite Forall_forall in IH. specialize (IH _ Ix). cbn [snd] in IH.
  destruct (names_ok_entry _ _ _ OK Ix) as [Hx Hc].
  destruct c as [|s]; [destruct I|]. cbn [rlistdir_entry] in I.
  destruct (ishidden x) eqn:V; [destruct I|].
  destruct I as [I|I].
  - injection I as <- <-. exists [x]. repeat split.
    + discriminate.
    + apply (reaches_below entries x s [] s Ix). constructor.
    + constructor; [exact V | constructor].
  - apply in_map_iff in I as ([y ys] & E & I). injection E as <- <-.
    destruct (IH Hc _ _ I) as (ds & N & R & Vs & ->). cbn [entries_of] in R.
    exists (x :: ds). repeat split.
    + discriminate.
    + exact (reaches_below entries x s ds ys Ix R).
    + constructor; assumption.
    + apply join_names; [exact Hx | exact N |].
      exact (proj1 (reaches_names_ok _ _ _ R Hc)).
Qed.

(** Every directory below, reached through directories that are not
    hidden, is listed. *)
Lemma rlistdir_complete (entries : list (string * node)) (ds : list string)
    (sub : list (string * node)) :
  reaches entries ds sub -> ds <> [] -> Forall visible ds ->
  names_ok (Dir entries) = true ->
  In (String.concat "/" ds, sub) (rlistdir (Dir entries)).
Proof.
  induction 1 as [|entries d s ds sub' I R IH]; intros N V OK; [congruence|].
  inversion V as [|? ? Vd Vds]; subst.
  destruct (names_ok_entry _ _ _ OK I) as [Hd Hs].
  rewrite rlistdir_Dir. apply in_flat_map. exists (d, Dir s). split; [exact I|].
  cbn [rlistdir_entry]. rewrite Vd.
  destruct ds as [|d' ds'].
  - inversion R; subst. left. reflexivity.
  - right. apply in_map_iff. exists (String.concat "/" (d' :: ds'), sub').
    split.
    + f_equal. apply join_names; [exact Hd | discriminate |].
      exact (proj1 (reaches_names_ok _ _ _ R Hs)).
    + apply IH; [discriminate | exact Vds | exact Hs].
Qed.

(** The directories that [**] stands for: the root and every directory
    below it that is reached without passing a hidden one. *)
Lemma glob2_spec (entries : list (string * node)) (rel : string)
    (sub : list (string * node)) :
  names_ok (Dir entries) = true ->
  (In (rel, sub) (glob2 entries) <->
   exists ds, reaches entries ds sub /\ Forall visible ds /\
              rel = String.concat "/" ds).
Proof.
  intros OK. unfold glob2. split.
  - intros [E|I].
    + injection E as <- <-. exists []. repeat split; constructor.
    + destruct (rlistdir_sound _ OK _ _ I) as (ds & _ & R & V & ->).
      exists ds. repeat split; assumption.
  - intros (ds & R & V & ->).
    destruct ds as [|d ds].
    + inversion R; subst. left. reflexivity.
    + right. apply rlistdir_complete; [exact R | discriminate | exact V | exact OK].
Qed.

Lemma glob1_ext_spec (sub : list (string * node)) (ext x : string) :
  In x (glob1_ext sub ext) <->
  exists n, In (x, n) sub /\ ishidden x = false /\
            PyStr.endswith ("." ++ ext) x = true.
Proof.
  unfold glob1_ext. rewrite filter_In, in_map_iff, andb_true_iff, negb_true_iff.
  split.
  - intros (([y n] & E & I) & V & S). cbn [fst] in E. subst y.
    exists n. auto.
  - intros (n & I & V & S). split; [|auto]. exists (x, n). auto.
Qed.

(** The path glob returns for the entry [x] of the directory [ds]. *)
Lemma result_path (root : string) (ds : list string) (x : string) :
  plain_root root = true -> Forall named ds -> name_ok x = true ->
  OsPath.join (OsPath.join root (String.concat "/" ds)) x
  = root ++ "/" ++ String.concat "/" (ds ++ [x]).
Proof.
  unfold plain_root. rewrite !andb_true_iff, !negb_true_iff.
  intros [[Ne _] Er] Hds Hx. apply String.eqb_neq in Ne.
  assert (Sx : PyStr.startswith "/" x = false).
  { pose proof (startswith_slash_app x EmptyString Hx) as S.
    now rewrite append_nil_r in S. }
  destruct ds as [|d ds].
  - cbn [String.concat app].
    rewrite (join_plain root EmptyString Ne Er eq_refl).
    now rewrite join_after_slash.
  - rewrite (join_plain root _ Ne Er (concat_startswith _ Hds)).
    rewrite concat_snoc by discriminate.
    rewrite join_plain.
    + now rewrite !append_assoc.
    + destruct root; [congruence | discriminate].
    + change (root ++ "/" ++ String.concat "/" (d :: ds))
        with (root ++ String "/" (String.concat "/" (d :: ds))).
      replace (root ++ String "/" (String.concat "/" (d :: ds)))
        with ((root ++ "/") ++ String.concat "/" (d :: ds))
        by apply append_assoc.
      apply concat_endswith; [discriminate | exact Hds].
    + exact Sx.
Qed.

(** What [glob.glob(root + "/**/*." + ext, recursive=True)] returns. *)
Lemma recursive_ext_spec (root : string) (entries : list (string * node))
    (ext p : string) :
  plain_root root = true -> names_ok (Dir entries) = true ->
  (In p (recursive_ext root entries ext) <->
   visible_with_extension root entries ext p).
Proof.
  intros PR OK. unfold recursive_ext, visible_with_extension.
  rewrite in_flat_map. split.
  - intros ([rel sub] & I & J).
    apply in_map_iff in J as (x & <- & J).
    apply (glob2_spec entries rel sub OK) in I as (ds & R & V & ->).
    apply glob1_ext_spec in J as (n & Ix & Vx & S).
    destruct (reaches_names_ok _ _ _ R OK) as [Nds OKsub].
    destruct (names_ok_entry _ _ _ OKsub Ix) as [Nx _].
    exists ds, sub, x, n. repeat split; try assumption.
    + apply Forall_app. split; [exact V | constructor; [exact Vx | constructor]].
    + now apply result_path.
  - intros (ds & sub & x & n & R & Ix & V & S & ->).
    apply Forall_app in V as [V Vx]. inversion Vx; subst.
    destruct (reaches_names_ok _ _ _ R OK) as [Nds OKsub].
    destruct (names_ok_entry _ _ _ OKsub Ix) as [Nx _].
    exists (String.concat "/" ds, sub). split.
    + apply glob2_spec; [exact OK|]. exists ds. auto.
    + apply in_map_iff. exists x. split; [now apply result_path|].
      apply glob1_ext_spec. exists n. auto.
Qed.

(** The base name of a returned path is the name of the entry. *)
Lemma basename_result (root : string) (ds : list string) (x : string) :
  name_ok x = true ->
  OsPath.basename (root ++ "/" ++ String.concat "/" (ds ++ [x])) = x.
Proof.
  intros Hx. destruct (name_ok_parts x Hx) as [_ Z].
  destruct ds as [|d ds].
  - cbn [app String.concat]. now apply basename_after_slash.
  - rewrite concat_snoc by discriminate.
    replace (root ++ "/" ++ String.concat "/" (d :: ds) ++ "/" ++ x)
      with ((root ++ "/" ++ String.concat "/" (d :: ds)) ++ String "/" x)
      by (now rewrite !append_assoc).
    now apply basename_after_slash.
Qed.

End GlobFacts.

Lemma eqb_append_head (a x y : string) :
  String.eqb (a ++ x) (a ++ y) = String.eqb x y.
Proof.
  induction a as [|c a IH]; [reflexivity|].
  cbn [append String.eqb]. now rewrite Ascii.eqb_refl.
Qed.

Lemma strip_prefix_append (a b c : string) :
  strip_prefix (a ++ b) (a ++ c) = strip_prefix b c.
Proof.
  induction a as [|x a IH]; [reflexivity|].
  cbn [append strip_prefix]. now rewrite Ascii.eqb_refl.
Qed.

(** The example worlds answer as the library does. *)
Lemma tree_world_holds (cwd root : string) (entries : list (string * PyGlob.node)) :
  holds_directory (tree_world cwd root entries) root entries.
Proof.
  unfold holds_directory, tree_world. cbn [isdir glob_glob].
  split; [apply String.eqb_refl|].
  intros ext PE. rewrite eqb_append_head.
  change (String.eqb ("/**/*." ++ ext) "/*/rgb/") with false. cbv iota.
  rewrite (strip_prefix_append root "/**/*." ("/**/*." ++ ext)).
  change (strip_prefix "/**/*." ("/**/*." ++ ext)) with (Some ext).
  cbv iota. now rewrite PE.
Qed.

(** C6, as amended.  For an existing root directory and an extension, both
    free of glob's pattern characters, the resolver returns exactly the
    paths of the entries under the root, files and directories alike, that
    are reached through directories without a name that begins with a dot,
    and whose own name does not begin with a dot and ends with a dot
    followed by the extension. *)
Theorem resolve_files_selects (w : World) (root : string)
    (entries : list (string * PyGlob.node)) (ext : string) :
  holds_directory w root entries ->
  plain_root root = true -> plain_ext ext = true ->
  PyGlob.names_ok (PyGlob.Dir entries) = true ->
  forall p,
    In p (resolve_files w (Some root) (Some ext)) <->
    visible_with_extension root entries ext p.
Proof.
  intros (_ & G) PR PE OK p.
  unfold resolve_files, upload_pattern. cbn [PyStr.format].
  rewrite (G ext PE). now apply recursive_ext_spec.
Qed.

Lemma resolve_files_selects_witness :
  In "data/sub/c.png" (resolve_files upload_world (Some "data") (Some "png")).
Proof.
  apply (resolve_files_selects upload_world "data" upload_tree "png"
           (tree_world_holds "/home/u" "data" upload_tree) eq_refl eq_refl eq_refl).
  exists ["sub"], [("c.png", PyGlob.File); ("d.jpg", PyGlob.File)], "c.png", PyGlob.File.
  repeat split.
  - apply (PyGlob.reaches_below upload_tree "sub"
             [("c.png", PyGlob.File); ("d.jpg", PyGlob.File)]).
    + simpl. auto.
    + constructor.
  - simpl. auto.
  - repeat constructor.
Defined.

(** C6 as stated fails: the resolver does not return the set of all files
    under the root whose name ends with the suffix.  The hidden file
    [.thumb.png] is such a file and is not returned. *)
Lemma resolve_files_skips_hidden_files :
  ~ (forall p,
        In p (resolve_files hidden_world (Some "data") (Some "png")) <->
        file_with_suffix "data" hidden_tree "png" p).
Proof.
  intros C.
  assert (F : file_with_suffix "data" hidden_tree "png" "data/.thumb.png").
  { exists [], hidden_tree, ".thumb.png". repeat split.
    - constructor.
    - simpl. auto. }
  apply C in F. vm_compute in F.
  destruct F as [F|[F|[]]]; discriminate F.
Qed.

(* ================================================================== *)
(** ** Directory upload without a format *)

Lemma upload_file_calls (w : World) (file bkt : string) (key : option string)
    (h : list event) :
  forall c, In c (s3_calls (snd (upload_file w file bkt key h))) ->
            c = (file, bkt, object_key file key).
Proof.
  intros c. rewrite upload_file_eq. cbv zeta.
  destruct (boto3_client_raises w h); [intros []|].
  destruct (s3_upload_raises w h file bkt (object_key file key)) as [e|].
  - destruct (is_ClientError e); simpl; intros [<-|[]]; reflexivity.
  - simpl. intros [<-|[]]. reflexivity.
Qed.

(** Whatever is raised, the loop uploads nothing but files of its list. *)
Lemma upload_each_only_files (w : World) (files : list string) (bkt : string)
    (dd : option string) :
  forall h f b k,
    In (f, b, k) (s3_calls (snd (upload_each w files bkt dd h))) -> In f files.
Proof.
  induction files as [|file rest IH]; intros h f b k; [intros []|].
  cbn [upload_each].
  set (line := LogInfo ("Copying file " ++ file)).
  set (key := if PyStr.truthy dd
              then Some (PyStr.format dd ++ "/" ++ OsPath.basename file)
              else None).
  unfold bind at 1. unfold logging_info at 1, emit at 1. fold line.
  unfold bind at 1.
  pose proof (upload_file_calls w file bkt key (h ++ [line])%list) as U.
  destruct (upload_file w file bkt key (h ++ [line])%list) as [[r|e] d1].
  - pose proof (IH ((h ++ [line]) ++ d1)%list f b k) as R.
    destruct (upload_each w rest bkt dd ((h ++ [line]) ++ d1)%list) as [r2 d2].
    cbn [snd] in *. rewrite !s3_calls_app. intros I.
    apply in_app_or in I as [[]|I]. apply in_app_or in I as [I|I].
    + left. apply U in I. now injection I.
    + right. now apply R.
  - cbn [snd] in *. rewrite s3_calls_app. intros I.
    apply in_app_or in I as [[]|I]. left. apply U in I. now injection I.
Qed.

Lemma directory_upload_only_files (w : World) (sd fmt dd : option string)
    (bkt : string) (h : list event) :
  forall f b k,
    In (f, b, k) (s3_calls (snd (directory_upload w sd fmt dd bkt h))) ->
    In f (resolve_files w sd fmt).
Proof.
  intros f b k. unfold directory_upload.
  destruct (PyStr.truthy sd) eqn:T; [|intros []].
  destruct sd as [s|]; [|discriminate T].
  unfold os_path_isdir. unfold bind at 1. unfold ret at 1.
  destruct (isdir w s); [|intros []].
  unfold bind at 1. unfold logging_info at 1, emit at 1.
  match goal with
  | |- context [upload_each w ?fs bkt dd ?h0] =>
      pose proof (upload_each_only_files w fs bkt dd h0 f b k) as U;
      destruct (upload_each w fs bkt dd h0) as [r d]
  end.
  cbn [snd] in *. rewrite !s3_calls_app. intros I.
  apply in_app_or in I as [[]|I]. apply in_app_or in I as [[]|I]. now apply U.
Qed.

(** C10.  When the format option is omitted, the pattern is built with the
    printed form of [None]: it ends in [*.None].  The files selected are
    then only entries whose name ends with the literal extension [.None],
    and the directory upload uploads no file with another name. *)
Theorem directory_upload_without_format (w : World) (sd : string)
    (entries : list (string * PyGlob.node)) (dd : option string) (bkt : string)
    (h : list event) :
  holds_directory w sd entries ->
  plain_root sd = true ->
  PyGlob.names_ok (PyGlob.Dir entries) = true ->
  upload_pattern (Some sd) None = sd ++ "/**/*.None" /\
  resolve_files w (Some sd) None = PyGlob.recursive_ext sd entries "None" /\
  (forall f, In f (resolve_files w (Some sd) None) ->
             PyStr.endswith ".None" (OsPath.basename f) = true) /\
  (forall f b k,
      In (f, b, k) (s3_calls (snd (directory_upload w (Some sd) None dd bkt h))) ->
      PyStr.endswith ".None" (OsPath.basename f) = true).
Proof.
  intros H PR OK.
  assert (G : resolve_files w (Some sd) None = PyGlob.recursive_ext sd entries "None").
  { destruct H as (_ & G). exact (G "None" eq_refl). }
  assert (S : forall f, In f (resolve_files w (Some sd) None) ->
                        PyStr.endswith ".None" (OsPath.basename f) = true).
  { intros f I. rewrite G in I.
    apply (recursive_ext_spec sd entries "None" f PR OK) in I
      as (ds & sub & x & n & R & Ix & _ & E & ->).
    destruct (reaches_names_ok _ _ _ R OK) as [_ OKsub].
    destruct (names_ok_entry _ _ _ OKsub Ix) as [Nx _].
    now rewrite basename_result. }
  split; [reflexivity|]. split; [exact G|]. split; [exact S|].
  intros f b k I. apply S. exact (directory_upload_only_files _ _ _ _ _ _ _ _ _ I).
Qed.

Lemma directory_upload_without_format_witness :
  resolve_files upload_world (Some "data") None = [] /\
  s3_calls (snd (run (directory_upload none_world (Some "data") None None "bkt")))
  = [("data/weird.None", "bkt", "weird.None")] /\
  PyStr.endswith ".None" (OsPath.basename "data/weird.None") = true.
Proof.
  split; [reflexivity|]. split; [reflexivity|].
  apply (proj2 (proj2 (proj2
           (directory_upload_without_format none_world "data" none_tree None "bkt" []
              (tree_world_holds "/home/u" "data" none_tree) eq_refl eq_refl)))
           "data/weird.None" "bkt" "weird.None").
  simpl. auto.
Defined.


(* ================================================================== *)
(** ** The folder a camera identifier is derived from *)

Section CameraFolder.

Import PyGlob.

Lemma split_all_not_nil (c : ascii) (s : string) : PyStr.split_all c s <> [].
Proof.
  induction s as [|a s IH]; cbn [PyStr.split_all]; [discriminate|].
  destruct (Ascii.eqb a c); [discriminate|].
  destruct (PyStr.split_all c s); [congruence | discriminate].
Qed.

Lemma split_all_plain (c : ascii) (x : string) :
  PyStr.count c x = 0 -> PyStr.split_all c x = [x].
Proof.
  induction x as [|a x IH]; cbn [PyStr.split_all PyStr.count]; [reflexivity|].
  destruct (Ascii.eqb a c); [discriminate|]. intros Z. now rewrite IH.
Qed.

Lemma split_all_append (c : ascii) (a b : string) :
  PyStr.split_all c (a ++ String c b)
  = (PyStr.split_all c a ++ PyStr.split_all c b)%list.
Proof.
  induction a as [|x a IH]; cbn [append PyStr.split_all].
  - now rewrite Ascii.eqb_refl.
  - rewrite IH. destruct (Ascii.eqb x c); [reflexivity|].
    pose proof (split_all_not_nil c a) as N.
    destruct (PyStr.split_all c a); [congruence | reflexivity].
Qed.

Lemma filter_lstrip_slash (s : string) :
  filter PathLib.is_name (PyStr.split_all "/" (PathLib.lstrip_slash s))
  = filter PathLib.is_name (PyStr.split_all "/" s).
Proof.
  induction s as [|a s IH]; [reflexivity|].
  cbn [PathLib.lstrip_slash].
  destruct (Ascii.eqb a "/") eqn:E; [|reflexivity].
  cbn [PyStr.split_all]. rewrite E. cbn [filter PathLib.is_name String.eqb negb andb].
  exact IH.
Qed.

Lemma parts_parse (s : string) :
  PathLib.parts (PathLib.parse s) = filter PathLib.is_name (PyStr.split_all "/" s).
Proof.
  unfold PathLib.parse, PathLib.splitroot.
  destruct (PyStr.startswith "/" s); [|reflexivity].
  destruct (Nat.eqb _ 2); cbn [PathLib.parts]; apply filter_lstrip_slash.
Qed.

Lemma root_parse (s : string) :
  PathLib.root (PathLib.parse s) = EmptyString \/
  exists r, PathLib.root (PathLib.parse s) = r ++ "/".
Proof.
  unfold PathLib.parse, PathLib.splitroot.
  destruct (PyStr.startswith "/" s); [|now left].
  right. destruct (Nat.eqb _ 2); cbn [PathLib.root]; [now exists "/" | now exists ""].
Qed.

Lemma basename_of_parts (r : string) (cs : list string) (x : string) :
  (r = EmptyString \/ exists r', r = r' ++ "/") -> PyStr.count "/" x = 0 ->
  OsPath.basename (r ++ String.concat "/" (cs ++ [x])) = x.
Proof.
  intros Hr Z. destruct cs as [|c cs].
  - cbn [app String.concat]. destruct Hr as [->|(r' & ->)].
    + now apply basename_plain.
    + rewrite append_assoc. now apply basename_after_slash.
  - rewrite concat_snoc by discriminate. rewrite <- append_assoc.
    now apply basename_after_slash.
Qed.

(** For a folder [root/x/rgb/], lines 51-52 find the name [x]. *)
Lemma camera_folder_name_of_rgb_folder (w : World) (root x : string) :
  name_ok x = true -> ishidden x = false ->
  camera_folder_name w (root ++ "/" ++ x ++ "/rgb/") = x.
Proof.
  intros Hx Vx. destruct (name_ok_parts x Hx) as [Nx Zx].
  assert (Ix : PathLib.is_name x = true).
  { unfold PathLib.is_name. apply andb_true_iff. split; apply negb_true_iff.
    - now apply String.eqb_neq.
    - apply String.eqb_neq. intros ->. discriminate Vx. }
  set (A := filter PathLib.is_name (PyStr.split_all "/" root)).
  assert (P : PathLib.parts (PathLib.parse (root ++ "/" ++ x ++ "/rgb/"))
              = ((A ++ [x]) ++ ["rgb"])%list).
  { rewrite parts_parse.
    change (root ++ "/" ++ x ++ "/rgb/")
      with (root ++ String "/" (x ++ String "/" ("rgb" ++ String "/" ""))).
    rewrite !split_all_append, (split_all_plain "/" x Zx), !filter_app.
    cbn [filter]. rewrite Ix. cbn. now rewrite <- app_assoc. }
  unfold camera_folder_name, PathLib.parent. rewrite P, removelast_last.
  unfold PathLib.absolute. cbn [PathLib.root PathLib.parts].
  destruct (String.eqb_spec (PathLib.root (PathLib.parse (root ++ "/" ++ x ++ "/rgb/")))
              EmptyString) as [E|E].
  - unfold PathLib.str. cbn [PathLib.root PathLib.parts]. rewrite app_assoc.
    rewrite append_eqb_empty.
    + apply basename_of_parts; [apply root_parse | exact Zx].
    + destruct (PathLib.parts (PathLib.parse (getcwd w)) ++ A)%list as [|c cs].
      * exact Nx.
      * rewrite concat_snoc by discriminate.
        destruct (String.concat "/" (c :: cs)); discriminate.
  - unfold PathLib.str. cbn [PathLib.root PathLib.parts].
    rewrite append_eqb_empty.
    + apply basename_of_parts; [apply root_parse | exact Zx].
    + destruct A as [|c cs].
      * exact Nx.
      * rewrite concat_snoc by discriminate.
        destruct (String.concat "/" (c :: cs)); discriminate.
Qed.

(** So the identifier of such a folder is a function of the name [x]
    alone. *)
Lemma identifier_of_rgb_folder (w : World) (root x : string) :
  name_ok x = true -> ishidden x = false ->
  camera_identifier x = Ret (identifier_of w (root ++ "/" ++ x ++ "/rgb/")).
Proof.
  intros Hx Vx. rewrite <- identifier_of_eq.
  now rewrite camera_folder_name_of_rgb_folder.
Qed.

(** The folders glob returns for [root/*/rgb/] have that form. *)
Lemma camera_folders_form (root : string) (entries : list (string * node))
    (folder : string) :
  plain_root root = true -> names_ok (Dir entries) = true ->
  In folder (camera_folders root entries) ->
  exists x sub, In (x, Dir sub) entries /\ name_ok x = true /\ ishidden x = false /\
                folder = root ++ "/" ++ x ++ "/rgb/".
Proof.
  unfold plain_root. rewrite !andb_true_iff, !negb_true_iff.
  intros [[Ne _] Er] OK I. apply String.eqb_neq in Ne.
  unfold camera_folders in I. apply in_flat_map in I as ([x c] & Ix & I).
  destruct c as [|sub]; [destruct I|].
  destruct (ishidden x) eqn:V; [destruct I|]. cbn [negb andb] in I.
  destruct (existsb _ sub); [|destruct I]. destruct I as [<-|[]].
  destruct (names_ok_entry _ _ _ OK Ix) as [Hx _].
  destruct (name_ok_parts x Hx) as [Nx Zx].
  exists x, sub. repeat split; try assumption.
  assert (Sx : PyStr.startswith "/" x = false).
  { pose proof (startswith_slash_app x EmptyString Hx) as S.
    now rewrite append_nil_r in S. }
  rewrite (join_plain root x Ne Er Sx).
  set (X := root ++ "/" ++ x).
  assert (NX : X <> EmptyString)
    by (subst X; destruct root; [congruence | discriminate]).
  assert (EX : PyStr.endswith "/" X = false).
  { subst X. replace (root ++ "/" ++ x) with ((root ++ "/") ++ x)
      by apply append_assoc.
    now apply endswith_slash_app. }
  rewrite (join_plain X "rgb" NX EX eq_refl).
  set (Y := X ++ "/" ++ "rgb").
  assert (NY : Y <> EmptyString)
    by (subst Y; destruct X; [congruence | discriminate]).
  assert (EY : PyStr.endswith "/" Y = false).
  { subst Y. replace (X ++ "/" ++ "rgb") with ((X ++ "/") ++ "rgb")
      by apply append_assoc.
    apply endswith_slash_app; [discriminate | reflexivity]. }
  rewrite (join_plain Y EmptyString NY EY eq_refl).
  subst Y X. rewrite !append_assoc. reflexivity.
Qed.

End CameraFolder.

(* ================================================================== *)
(** * Further properties of the script *)

(** ** upload_file in any world *)

Lemma is_ClientError_inv (e : exn) :
  is_ClientError e = true -> e = ClientError (exn_str e).
Proof. destruct e; simpl; intros H; try discriminate H; reflexivity. Qed.

(** X1.  Whatever the world does, [upload_file] calls the client's upload at
    most once, for the given file and bucket; it returns [False] exactly
    when it logged an error, which happens exactly when that call raised a
    [ClientError], and the line logged is the text of that exception; when
    it returns [True] the upload call is all it did. *)
Theorem upload_file_call_and_log (w : World) (file_name bucket : string)
    (object_name : option string) (h : list event) :
  let r := fst (upload_file w file_name bucket object_name h) in
  let t := snd (upload_file w file_name bucket object_name h) in
  let key := object_key file_name object_name in
  (s3_calls t = [] \/ s3_calls t = [(file_name, bucket, key)]) /\
  (r = Ret false <-> logged_errors t <> []) /\
  (forall msg, In msg (logged_errors t) <->
     boto3_client_raises w h = None /\
     s3_upload_raises w h file_name bucket key = Some (ClientError msg)) /\
  (r = Ret true -> t = [S3UploadCall file_name bucket key]).
Proof.
  cbv zeta. rewrite upload_file_eq. cbv zeta.
  set (key := object_key file_name object_name).
  destruct (boto3_client_raises w h) as [e0|].
  - cbn. intuition (try discriminate; try congruence).
  - destruct (s3_upload_raises w h file_name bucket key) as [e|].
    + destruct (is_ClientError e) eqn:C.
      * apply is_ClientError_inv in C. rewrite C. cbn.
        intuition (try discriminate; try congruence).
      * cbn. intuition (try discriminate; try congruence).
        match goal with H : Some _ = Some _ |- _ => injection H as -> end.
        discriminate C.
    + cbn. intuition (try discriminate; try congruence).
Qed.

Lemma upload_file_call_and_log_witness :
  fst (run (upload_file denied_world "data/a.png" "bkt" None)) = Ret false.
Proof.
  pose proof (upload_file_call_and_log denied_world "data/a.png" "bkt" None []) as H.
  cbv zeta in H. destruct H as (_ & [_ B] & _).
  apply B. discriminate.
Defined.

(** X2.  [boto3.client] is called before the [try]: when it raises, the
    exception leaves [upload_file] whatever its class, a [ClientError]
    included, and no upload is attempted and nothing is logged. *)
Theorem upload_file_client_creation_unguarded (w : World)
    (file_name bucket : string) (object_name : option string) (h : list event)
    (e : exn) :
  boto3_client_raises w h = Some e ->
  upload_file w file_name bucket object_name h = (Raise e, []).
Proof. intros H. rewrite upload_file_eq. cbv zeta. now rewrite H. Qed.

Lemma upload_file_client_creation_unguarded_witness :
  run (upload_file no_region_world "data/a.png" "bkt" None) = (Raise no_region, []).
Proof.
  apply (upload_file_client_creation_unguarded no_region_world "data/a.png" "bkt"
           None [] no_region).
  reflexivity.
Defined.

(* ================================================================== *)
(** ** build_videos in any world *)

(** The loop either launches every job or stops at the first step that
    raises, with the jobs before it launched. *)
Lemma launch_each_any_world (w : World) (folders : list string) :
  forall acc h,
    launch_each w (getcwd w) folders acc h
    = (Ret (acc ++ map (job_process w) folders)%list,
       flat_map (job_events w) folders)
    \/ exists done f rest e partial,
         folders = (done ++ f :: rest)%list /\
         launch_each w (getcwd w) folders acc h
         = (Raise e, (flat_map (job_events w) done ++ partial)%list) /\
         partial_job w f partial.
Proof.
  induction folders as [|f fs IH]; intros acc h.
  - left. cbn [launch_each map flat_map]. now rewrite app_nil_r.
  - cbn [launch_each].
    unfold bind at 1. unfold lift at 1. rewrite identifier_of_eq.
    unfold os_makedirs, open_w, Popen, attempt, bind, ret, lift.
    cbv beta iota.
    destruct (makedirs_raises w _ _) as [e|].
    { right. exists [], f, fs, e, [].
      split; [reflexivity | split; [reflexivity | now left]]. }
    destruct (open_raises w _ _) as [e|].
    { right. exists [], f, fs, e. eexists.
      split; [reflexivity | split; [reflexivity | right; now left]]. }
    destruct (popen_raises w _ _) as [e|].
    { right. exists [], f, fs, e. eexists.
      split; [reflexivity | split; [reflexivity | right; now right]]. }
    match goal with
    | |- context [launch_each w (getcwd w) fs ?a ?hh] =>
        destruct (IH a hh) as [E | (done & g & rest & e & partial & -> & E & P)];
        rewrite E
    end.
    + left. cbn [map flat_map job_events job_process app].
      now rewrite <- app_assoc.
    + right. exists (f :: done), g, rest, e, partial.
      split; [reflexivity | split; [|exact P]].
      cbn [flat_map job_events job_process app]. reflexivity.
Qed.

(** The two ways a build of an existing directory can go. *)
Lemma build_videos_any_world (w : World) (sd : string) (h : list event) :
  isdir w sd = true ->
  let folders := glob_glob w (sd ++ "/*/rgb/") false in
  build_videos w (Some sd) h
  = (Ret tt,
     ([LogInfo (started_msg (Some sd) (getcwd w))]
      ++ flat_map (job_events w) folders
      ++ map Waited (map (job_process w) folders)
      ++ [LogInfo "Finished creating videos from images."])%list)
  \/ exists done f rest e partial,
       folders = (done ++ f :: rest)%list /\
       partial_job w f partial /\
       build_videos w (Some sd) h
       = (Ret tt,
          ([LogInfo (started_msg (Some sd) (getcwd w))]
           ++ (flat_map (job_events w) done ++ partial)
           ++ [LogError (ffmpeg_failed_msg e)])%list).
Proof.
  intros Hdir folders.
  unfold build_videos.
  destruct (launch_each_any_world w folders []
              ((h ++ []) ++ [LogInfo (started_msg (Some sd) (getcwd w))])%list)
    as [E | (done & f & rest & e & partial & F & E & P)].
  - left.
    refine (run_bind_Ret _ _ _ (isdir w sd) [] _ _ eq_refl _).
    cbn beta. rewrite Hdir. cbv zeta.
    eapply run_bind_Ret; [reflexivity|].
    apply run_try_Ret.
    eapply run_bind_Ret; [exact E|].
    eapply run_bind_Ret; [apply wait_each_eq|]. reflexivity.
  - right. exists done, f, rest, e, partial. split; [exact F|]. split; [exact P|].
    refine (run_bind_Ret _ _ _ (isdir w sd) [] _ _ eq_refl _).
    cbn beta. rewrite Hdir. cbv zeta.
    eapply run_bind_Ret; [reflexivity|].
    eapply run_try_caught; [|reflexivity|reflexivity].
    eapply run_bind_Raise. exact E.
Qed.

Lemma waited_app (a b : list event) :
  waited (a ++ b) = (waited a ++ waited b)%list.
Proof. apply flat_map_app. Qed.

Lemma made_dirs_app (a b : list event) :
  made_dirs (a ++ b) = (made_dirs a ++ made_dirs b)%list.
Proof. apply flat_map_app. Qed.

Lemma waited_jobs (w : World) (folders : list string) :
  waited (flat_map (job_events w) folders) = [].
Proof.
  induction folders as [|f fs IH]; [reflexivity|].
  cbn [flat_map]. rewrite waited_app, IH. reflexivity.
Qed.

Lemma waited_waits (ps : list process) : waited (map Waited ps) = ps.
Proof.
  induction ps as [|p ps IH]; [reflexivity|].
  cbn [map]. change (Waited p :: map Waited ps) with ([Waited p] ++ map Waited ps)%list.
  rewrite waited_app, IH. reflexivity.
Qed.

Lemma made_dirs_jobs (w : World) (folders : list string) :
  made_dirs (flat_map (job_events w) folders)
  = map (fun f => OsPath.dirname (log_file_path (getcwd w) (identifier_of w f)))
        folders.
Proof.
  induction folders as [|f fs IH]; [reflexivity|].
  cbn [flat_map map]. rewrite made_dirs_app, IH. reflexivity.
Qed.

Lemma made_dirs_waits (ps : list process) : made_dirs (map Waited ps) = [].
Proof. induction ps; [reflexivity | assumption]. Qed.

Lemma firstn_length_app {A} (a b : list A) : firstn (List.length a) (a ++ b) = a.
Proof.
  induction a as [|x a IH]; [reflexivity|].
  cbn [List.length app firstn]. now rewrite IH.
Qed.

Lemma partial_job_reads (w : World) (f : string) (partial : list event) :
  partial_job w f partial ->
  launched partial = [] /\ waited partial = [] /\
  (forall p, In p (made_dirs partial) ->
             p = OsPath.dirname (log_file_path (getcwd w) (identifier_of w f))) /\
  (forall p, In p (opened partial) ->
             p = log_file_path (getcwd w) (identifier_of w f)).
Proof.
  unfold partial_job. intros [ -> | [ -> | -> ] ]; cbn; repeat split; intros p H;
    repeat (destruct H as [H|H]; [now subst|]); destruct H.
Qed.



(** X4.  In any world, a build of an existing directory first launches and
    then waits.  The processes launched are those of the first [n] folders
    of glob's list, in that order, and the trace splits into a part without
    waits and a part without launches.  Either every folder's process was
    launched and each is waited for once, in the order of launch, or some
    step raised and no process is waited for at all. *)
Theorem build_videos_launch_then_wait (w : World) (sd : string) (h : list event) :
  isdir w sd = true ->
  let folders := glob_glob w (sd ++ "/*/rgb/") false in
  let t := snd (build_videos w (Some sd) h) in
  exists n,
    n <= List.length folders /\
    launched t = map (job_process w) (firstn n folders) /\
    (n = List.length folders /\ waited t = launched t \/
     n < List.length folders /\ waited t = []) /\
    exists t1 t2, t = (t1 ++ t2)%list /\ waited t1 = [] /\ launched t2 = [].
Proof.
  intros Hdir folders t. subst t.
  destruct (build_videos_any_world w sd h Hdir)
    as [E | (done & f & rest & e & partial & F & P & E)]; rewrite E; cbn [snd];
    fold folders.
  - exists (List.length folders).
    assert (L : launched
                  ([LogInfo (started_msg (Some sd) (getcwd w))]
                   ++ flat_map (job_events w) folders
                   ++ map Waited (map (job_process w) folders)
                   ++ [LogInfo "Finished creating videos from images."])
                = map (job_process w) folders).
    { rewrite !launched_app, launched_jobs, launched_waits. cbn.
      now rewrite app_nil_r. }
    split; [lia|]. split; [now rewrite firstn_all|]. split.
    + left. split; [reflexivity|]. rewrite L.
      rewrite !waited_app, waited_jobs, waited_waits. cbn. now rewrite app_nil_r.
    + exists ([LogInfo (started_msg (Some sd) (getcwd w))]
              ++ flat_map (job_events w) folders)%list,
             (map Waited (map (job_process w) folders)
              ++ [LogInfo "Finished creating videos from images."])%list.
      split; [now rewrite <- app_assoc|]. split.
      * rewrite waited_app, waited_jobs. reflexivity.
      * rewrite launched_app, launched_waits. reflexivity.
  - destruct (partial_job_reads w f partial P) as (Lp & Wp & _ & _).
    exists (List.length done).
    assert (Len : List.length done < List.length folders).
    { fold folders in F. rewrite F, length_app. cbn. lia. }
    split; [lia|]. split; [|split].
    + fold folders in F. rewrite F, firstn_length_app.
      rewrite !launched_app, launched_jobs, Lp. cbn. now rewrite !app_nil_r.
    + right. split; [exact Len|].
      rewrite !waited_app, waited_jobs, Wp. reflexivity.
    + eexists. exists []. split; [now rewrite app_nil_r|]. split; [|reflexivity].
      rewrite !waited_app, waited_jobs, Wp. reflexivity.
Qed.

Lemma build_videos_launch_then_wait_witness :
  exists n,
    n <= 3 /\
    launched (snd (run (build_videos second_launch_fails_world (Some "data"))))
    = map (job_process second_launch_fails_world)
          (firstn n ["data/World_Cameras_Camera_01/rgb/";
                     "data/World_Cameras_Camera_02/rgb/";
                     "data/World_Cameras_Camera_03/rgb/"]).
Proof.
  destruct (build_videos_launch_then_wait second_launch_fails_world "data" []
              eq_refl) as (n & Hn & L & _).
  exists n. split; [exact Hn | exact L].
Defined.

Lemma in_launched_jobs (w : World) (folders : list string) (pr : process) :
  In pr (map (job_process w) folders) ->
  In (proc_log pr)
     (map (fun f => log_file_path (getcwd w) (identifier_of w f)) folders) /\
  exists f, In f folders /\ pr = job_process w f.
Proof.
  intros H. apply in_map_iff in H as (f & <- & I). split.
  - apply in_map_iff. exists f. split; [reflexivity | exact I].
  - exists f. split; [exact I | reflexivity].
Qed.

(** X5.  Whatever the world does and whatever fails, [build_videos] creates
    no directory but [<cwd>/video_creation_logs], opens no file that is not
    directly in that directory, and launches no process but the ffmpeg
    command of a folder that glob returned, with its output going to a log
    file the run has opened. *)
Theorem build_videos_writes_in_logs_dir (w : World) (sd : string) (h : list event) :
  let folders := glob_glob w (sd ++ "/*/rgb/") false in
  let t := snd (build_videos w (Some sd) h) in
  (forall p, In p (made_dirs t) -> p = logs_dir w) /\
  (forall p, In p (opened t) -> OsPath.dirname p = logs_dir w) /\
  (forall pr, In pr (launched t) ->
     In (proc_log pr) (opened t) /\
     exists f, In f folders /\ pr = job_process w f).
Proof.
  intros folders t. subst t. unfold logs_dir.
  destruct (isdir w sd) eqn:Hdir.
  - destruct (build_videos_any_world w sd h Hdir)
      as [E | (done & f & rest & e & partial & F & P & E)]; rewrite E; cbn [snd];
      fold folders.
    + rewrite !made_dirs_app, !opened_app, !launched_app.
      rewrite made_dirs_jobs, made_dirs_waits, opened_jobs, opened_waits,
        launched_jobs, launched_waits.
      cbn [made_dirs opened launched flat_map app]. rewrite !app_nil_r.
      repeat split.
      * intros p H. apply in_map_iff in H as (g & <- & _).
        apply dirname_log_file_path, identifier_no_slash.
      * intros p H. apply in_map_iff in H as (g & <- & _).
        apply dirname_log_file_path, identifier_no_slash.
      * now apply in_launched_jobs.
      * now apply in_launched_jobs.
    + destruct (partial_job_reads w f partial P) as (Lp & _ & Mp & Op).
      fold folders in F.
      rewrite !made_dirs_app, !opened_app, !launched_app.
      rewrite made_dirs_jobs, opened_jobs, launched_jobs, Lp.
      cbn [made_dirs opened launched flat_map app]. rewrite !app_nil_r.
      repeat split.
      * intros p H. apply in_app_or in H as [H|H].
        -- apply in_map_iff in H as (g & <- & _).
           apply dirname_log_file_path, identifier_no_slash.
        -- rewrite (Mp p H). apply dirname_log_file_path, identifier_no_slash.
      * intros p H. apply in_app_or in H as [H|H].
        -- apply in_map_iff in H as (g & <- & _).
           apply dirname_log_file_path, identifier_no_slash.
        -- rewrite (Op p H). apply dirname_log_file_path, identifier_no_slash.
      * apply in_or_app. left. now apply in_launched_jobs.
      * destruct (in_launched_jobs w done pr H) as (_ & g & I & ->).
        exists g. split; [|reflexivity]. rewrite F. apply in_or_app. now left.
  - rewrite build_videos_not_a_directory by exact Hdir.
    cbn [snd made_dirs opened launched flat_map app].
    split; [|split]; intros ? [].
Qed.

Lemma build_videos_writes_in_logs_dir_witness :
  In "/home/u/video_creation_logs/Camera_01.log"
     (opened (snd (run (build_videos second_launch_fails_world (Some "data"))))).
Proof.
  pose proof (build_videos_writes_in_logs_dir second_launch_fails_world "data" [])
    as H.
  cbv zeta in H. destruct H as (_ & _ & L).
  apply (L (mkProcess
              (ffmpeg_command "data/World_Cameras_Camera_01/rgb/" "Camera_01")
              "/home/u/video_creation_logs/Camera_01.log")).
  simpl. auto.
Defined.

(** X6.  When the log directory cannot be created, [build_videos] does not
    let the exception out: for a directory with at least one camera folder
    it logs the start, catches the exception of [os.makedirs] in the same
    handler as a failed launch, logs it under the ffmpeg message, and
    returns, having opened no file and launched no process. *)
Theorem build_videos_log_directory_failure (w : World) (sd : string) (e : exn)
    (h : list event) :
  isdir w sd = true ->
  glob_glob w (sd ++ "/*/rgb/") false <> [] ->
  (forall h', makedirs_raises w h' (logs_dir w) = Some e) ->
  build_videos w (Some sd) h
  = (Ret tt, [LogInfo (started_msg (Some sd) (getcwd w));
              LogError (ffmpeg_failed_msg e)]).
Proof.
  intros Hdir Hne Hm. unfold build_videos.
  refine (run_bind_Ret _ _ _ (isdir w sd) [] _ _ eq_refl _).
  cbn beta. rewrite Hdir. cbv zeta. cbn [PyStr.format].
  destruct (glob_glob w (sd ++ "/*/rgb/") false) as [|f fs]; [congruence|].
  change [LogInfo (started_msg (Some sd) (getcwd w)); LogError (ffmpeg_failed_msg e)]
    with ([LogInfo (started_msg (Some sd) (getcwd w))]
          ++ ([] ++ [LogError (ffmpeg_failed_msg e)]))%list.
  eapply run_bind_Ret; [reflexivity|].
  eapply run_try_caught; [|reflexivity|reflexivity].
  eapply run_bind_Raise. cbn [launch_each].
  refine (run_bind_Ret _ _ _ (identifier_of w f) [] _ _ _ _).
  - unfold lift. now rewrite identifier_of_eq.
  - eapply run_bind_Raise. unfold os_makedirs, attempt.
    rewrite dirname_log_file_path by apply identifier_no_slash.
    fold (logs_dir w). now rewrite Hm.
Qed.

Lemma build_videos_log_directory_failure_witness :
  run (build_videos readonly_world (Some "data"))
  = (Ret tt, [LogInfo (started_msg (Some "data") "/home/u");
              LogError (ffmpeg_failed_msg permission_denied)]).
Proof.
  apply (build_videos_log_directory_failure readonly_world "data"
           permission_denied [] eq_refl).
  - discriminate.
  - intros h'. reflexivity.
Defined.

(* ================================================================== *)
(** ** The upload loop in any world *)

(** One round of the loop of lines 114-120. *)
Lemma upload_each_cons (w : World) (file : string) (rest : list string)
    (bkt : string) (dd : option string) (h : list event) :
  upload_each w (file :: rest) bkt dd h
  = let line := LogInfo ("Copying file " ++ file) in
    let key := if PyStr.truthy dd
               then Some (PyStr.format dd ++ "/" ++ OsPath.basename file)
               else None in
    match upload_file w file bkt key (h ++ [line]) with
    | (Ret _, d1) =>
        let (r, d2) := upload_each w rest bkt dd ((h ++ [line]) ++ d1) in
        (r, line :: d1 ++ d2)
    | (Raise e, d1) => (Raise e, line :: d1)
    end%list.
Proof.
  cbn [upload_each]. unfold bind at 1. unfold logging_info at 1, emit at 1.
  unfold bind at 1. cbv zeta.
  destruct (upload_file w file bkt _ _) as [[r|e] d1]; [|reflexivity].
  destruct (upload_each w rest bkt dd _) as [r2 d2]. reflexivity.
Qed.

Lemma upload_each_any_world (w : World) (files : list string) (bkt : string)
    (dd : option string) :
  forall h, exists n,
    n <= List.length files /\
    s3_calls (snd (upload_each w files bkt dd h))
    = map (fun file => (file, bkt, directory_key dd file)) (firstn n files) /\
    (fst (upload_each w files bkt dd h) = Ret tt -> n = List.length files).
Proof.
  induction files as [|file rest IH]; intros h.
  - exists 0. split; [cbn; lia|]. split; [reflexivity | intros _; reflexivity].
  - rewrite upload_each_cons. cbv zeta.
    set (line := LogInfo ("Copying file " ++ file)).
    rewrite upload_file_eq. cbv zeta. rewrite object_key_of_directory.
    destruct (boto3_client_raises w (h ++ [line])) as [e0|].
    { exists 0. cbn. split; [lia|]. split; [reflexivity | discriminate]. }
    destruct (s3_upload_raises w (h ++ [line]) file bkt (directory_key dd file))
      as [e|].
    + destruct (is_ClientError e).
      * match goal with
        | |- context [upload_each w rest bkt dd ?hh] =>
            destruct (IH hh) as (n & Hn & C & R);
            destruct (upload_each w rest bkt dd hh) as [r d2]
        end.
        exists (S n). cbn [fst snd] in *. split; [cbn; lia|]. split.
        -- change (line :: [S3UploadCall file bkt (directory_key dd file);
                            LogError (exn_str e)] ++ d2)%list
             with ([line; S3UploadCall file bkt (directory_key dd file);
                    LogError (exn_str e)] ++ d2)%list.
           rewrite s3_calls_app, C. reflexivity.
        -- intros H. cbn. f_equal. now apply R.
      * exists 1. cbn. split; [lia|]. split; [reflexivity | discriminate].
    + match goal with
      | |- context [upload_each w rest bkt dd ?hh] =>
          destruct (IH hh) as (n & Hn & C & R);
          destruct (upload_each w rest bkt dd hh) as [r d2]
      end.
      exists (S n). cbn [fst snd] in *. split; [cbn; lia|]. split.
      * change (line :: [S3UploadCall file bkt (directory_key dd file)] ++ d2)%list
          with ([line; S3UploadCall file bkt (directory_key dd file)] ++ d2)%list.
        rewrite s3_calls_app, C. reflexivity.
      * intros H. cbn. f_equal. now apply R.
Qed.

(** The directory upload of an existing directory. *)
Lemma directory_upload_existing (w : World) (s : string) (fmt dd : option string)
    (bkt : string) (h : list event) :
  s <> EmptyString -> isdir w s = true ->
  directory_upload w (Some s) fmt dd bkt h
  = let files := resolve_files w (Some s) fmt in
    let line := LogInfo ("Total files to copy - " ++ PyStr.of_nat (List.length files)) in
    let (r, d) := upload_each w files bkt dd (h ++ [line])%list in
    (r, line :: d).
Proof.
  intros N D. unfold directory_upload. rewrite (truthy_Some s N).
  unfold os_path_isdir, bind, ret, logging_info, emit. rewrite D.
  cbv zeta. rewrite app_nil_r.
  destruct (upload_each w _ bkt dd _) as [r d]. reflexivity.
Qed.

(** X7.  Whatever the world does, the uploads of a directory upload are made
    for a prefix of the list glob returned, in the order of that list, each
    once, all to the given bucket and each under the key derived from the
    file's base name: no file is skipped before the point where the loop
    stops, and when the directory upload returns normally the prefix is the
    whole list. *)
Theorem directory_upload_uploads_prefix (w : World) (sd fmt dd : option string)
    (bkt : string) (h : list event) :
  let files := resolve_files w sd fmt in
  exists n,
    n <= List.length files /\
    s3_calls (snd (directory_upload w sd fmt dd bkt h))
    = map (fun file => (file, bkt, directory_key dd file)) (firstn n files) /\
    (fst (directory_upload w sd fmt dd bkt h) = Ret tt ->
     PyStr.truthy sd = true -> (forall s, sd = Some s -> isdir w s = true) ->
     n = List.length files).
Proof.
  intros files.
  destruct (PyStr.truthy sd) eqn:T.
  - destruct sd as [s|]; [|discriminate T].
    assert (N : s <> EmptyString).
    { intros ->. discriminate T. }
    destruct (isdir w s) eqn:D.
    + rewrite (directory_upload_existing w s fmt dd bkt h N D). cbv zeta.
      fold files.
      set (line := LogInfo ("Total files to copy - " ++ PyStr.of_nat (List.length files))).
      destruct (upload_each_any_world w files bkt dd (h ++ [line])%list)
        as (n & Hn & C & R).
      destruct (upload_each w files bkt dd (h ++ [line])%list) as [r d2].
      exists n. cbn [fst snd] in *. split; [exact Hn|]. split.
      * exact C.
      * intros H _ _. now apply R.
    + rewrite (directory_upload_not_a_directory w s bkt fmt dd h N D).
      exists 0. cbn. split; [lia|]. split; [reflexivity|].
      intros _ _ H. specialize (H s eq_refl). congruence.
  - unfold directory_upload. rewrite T.
    exists 0. cbn. split; [lia|]. split; [reflexivity|]. discriminate.
Qed.

Lemma directory_upload_uploads_prefix_witness :
  exists n,
    n <= 3 /\
    s3_calls (snd (run (directory_upload offline_world (Some "data") (Some "png")
                          None "bkt")))
    = map (fun file => (file, "bkt", directory_key None file))
          (firstn n ["data/a.png"; "data/b.png"; "data/sub/c.png"]).
Proof.
  destruct (directory_upload_uploads_prefix offline_world (Some "data") (Some "png")
              None "bkt" []) as (n & Hn & C & _).
  exists n. split; [exact Hn | exact C].
Defined.

(* ================================================================== *)
(** ** The two halves of main *)

Section EmitsOnly.

Variable P : event -> Prop.

Lemma emits_only_ret {A} (a : A) : emits_only P (ret a).
Proof. intros h. constructor. Qed.

Lemma emits_only_lift {A} (r : result A) : emits_only P (lift r).
Proof. intros h. constructor. Qed.

Lemma emits_only_emit (ev : event) : P ev -> emits_only P (emit ev).
Proof. intros H h. repeat constructor. exact H. Qed.

Lemma emits_only_attempt (o : list event -> option exn) (ev : event) :
  P ev -> emits_only P (attempt o ev).
Proof.
  intros H h. unfold attempt. destruct (o h); repeat constructor. exact H.
Qed.

Lemma emits_only_bind {A B} (m : M A) (k : A -> M B) :
  emits_only P m -> (forall a, emits_only P (k a)) -> emits_only P (bind m k).
Proof.
  intros Hm Hk h. unfold bind. specialize (Hm h).
  destruct (m h) as [[a|e] d]; [|exact Hm].
  specialize (Hk a (h ++ d)%list).
  destruct (k a (h ++ d)%list) as [r d']. cbn [snd] in *.
  apply Forall_app. split; assumption.
Qed.

Lemma emits_only_try {A} (m : M A) (c : exn -> bool) (k : exn -> M A) :
  emits_only P m -> (forall e, emits_only P (k e)) ->
  emits_only P (try_except m c k).
Proof.
  intros Hm Hk h. unfold try_except. specialize (Hm h).
  destruct (m h) as [[a|e] d]; [exact Hm|].
  destruct (c e); [|exact Hm].
  specialize (Hk e (h ++ d)%list).
  destruct (k e (h ++ d)%list) as [r d']. cbn [snd] in *.
  apply Forall_app. split; assumption.
Qed.

End EmitsOnly.

Lemma build_videos_emits (w : World) (sd : option string) :
  emits_only is_build_event (build_videos w sd).
Proof.
  unfold build_videos. apply emits_only_bind.
  - destruct sd; [apply emits_only_ret | apply emits_only_lift].
  - intros [|]; [|now apply emits_only_emit].
    apply emits_only_bind; [now apply emits_only_emit|]. intros _.
    apply emits_only_try; [|intros e; now apply emits_only_emit].
    apply emits_only_bind.
    + generalize (@nil process).
      induction (glob_glob w (PyStr.format sd ++ "/*/rgb/") false) as [|f fs IH];
        intros acc; cbn [launch_each]; [apply emits_only_ret|].
      apply emits_only_bind; [apply emits_only_lift|]. intros name.
      apply emits_only_bind; [now apply emits_only_attempt|]. intros _.
      apply emits_only_bind.
      { apply emits_only_bind; [now apply emits_only_attempt|].
        intros _. apply emits_only_ret. }
      intros log_file. apply emits_only_bind.
      { apply emits_only_bind; [now apply emits_only_attempt|].
        intros _. apply emits_only_ret. }
      intros p. apply IH.
    + intros ps. apply emits_only_bind; [|intros _; now apply emits_only_emit].
      induction ps as [|p ps IH]; cbn [wait_each]; [apply emits_only_ret|].
      apply emits_only_bind; [now apply emits_only_emit | intros _; exact IH].
Qed.

Lemma upload_file_emits (w : World) (file bkt : string) (key : option string) :
  emits_only is_upload_event (upload_file w file bkt key).
Proof.
  unfold upload_file. apply emits_only_bind.
  - intros h. unfold boto3_client. destruct (boto3_client_raises w h); constructor.
  - intros _. apply emits_only_try.
    + apply emits_only_bind; [|intros _; apply emits_only_ret].
      intros h. unfold s3_client_upload_file. repeat constructor.
    + intros e. apply emits_only_bind; [now apply emits_only_emit|].
      intros _. apply emits_only_ret.
Qed.

Lemma directory_upload_emits (w : World) (sd fmt dd : option string) (bkt : string) :
  emits_only is_upload_event (directory_upload w sd fmt dd bkt).
Proof.
  unfold directory_upload. destruct (PyStr.truthy sd); [|apply emits_only_ret].
  apply emits_only_bind.
  - destruct sd; [apply emits_only_ret | apply emits_only_lift].
  - intros [|]; [|now apply emits_only_emit].
    apply emits_only_bind; [now apply emits_only_emit|]. intros _.
    induction (resolve_files w sd fmt) as [|f fs IH]; cbn [upload_each];
      [apply emits_only_ret|].
    apply emits_only_bind; [now apply emits_only_emit|]. intros _.
    apply emits_only_bind; [apply upload_file_emits | intros _; exact IH].
Qed.

Lemma single_file_upload_emits (w : World) (sf df : option string) (bkt : string) :
  emits_only is_upload_event (single_file_upload w sf df bkt).
Proof.
  unfold single_file_upload. destruct sf as [file|]; [|apply emits_only_ret].
  destruct (PyStr.truthy (Some file)); [|apply emits_only_ret].
  destruct (isfile w file); [|now apply emits_only_emit].
  apply emits_only_bind; [now apply emits_only_emit|]. intros _.
  apply emits_only_bind; [apply upload_file_emits | intros _; apply emits_only_ret].
Qed.

Lemma build_events_no_upload (t : list event) :
  Forall is_build_event t -> s3_calls t = [].
Proof.
  induction 1 as [|ev t H _ IH]; [reflexivity|].
  destruct ev; cbn in *; try exact IH. contradiction.
Qed.

Lemma upload_events_no_build (t : list event) :
  Forall is_upload_event t ->
  made_dirs t = [] /\ opened t = [] /\ launched t = [] /\ waited t = [].
Proof.
  induction 1 as [|ev t H _ IH]; [repeat split|].
  destruct ev; cbn in *; try exact IH; contradiction.
Qed.

(** X8.  The bucket gates every upload: without a bucket, or with an empty
    one, a run makes no upload call, whatever the other options are and
    whatever the world does.  The build makes no upload call either. *)
Theorem main_without_bucket_uploads_nothing (w : World) (args : Args)
    (h : list event) :
  PyStr.truthy (bucket args) = false ->
  s3_calls (snd (main w args h)) = [] /\
  main w args h
  = (if build args then build_videos w (source_directory args) h else (Ret tt, [])).
Proof.
  intros T.
  assert (E : main w args h
              = (if build args then build_videos w (source_directory args) h
                 else (Ret tt, []))).
  { unfold main. rewrite T. unfold bind.
    destruct (build args).
    - destruct (build_videos w (source_directory args) h) as [[[]|e] d];
        [|reflexivity].
      destruct (bucket args); cbn; now rewrite app_nil_r.
    - destruct (bucket args); reflexivity. }
  split; [|exact E]. rewrite E.
  destruct (build args); [|reflexivity].
  apply build_events_no_upload, build_videos_emits.
Qed.

Lemma main_without_bucket_uploads_nothing_witness :
  s3_calls (snd (run (main camera_world
                        (mkArgs (Some "data") true (Some "mp4") (Some "out")
                                (Some "out/report.csv") None None)))) = [].
Proof.
  apply (main_without_bucket_uploads_nothing camera_world
           (mkArgs (Some "data") true (Some "mp4") (Some "out")
                   (Some "out/report.csv") None None) []).
  reflexivity.
Defined.

(** X9.  Without the build flag a run touches nothing on disk and starts no
    process: every event it adds is a log line or an upload call, so no
    directory is made, no file opened, no process launched or waited for,
    whatever the other options are and whatever the world does. *)
Theorem main_without_build_only_uploads (w : World) (args : Args) (h : list event) :
  build args = false ->
  let t := snd (main w args h) in
  Forall is_upload_event t /\
  made_dirs t = [] /\ opened t = [] /\ launched t = [] /\ waited t = [].
Proof.
  intros B t.
  assert (F : Forall is_upload_event t).
  { subst t. revert h. change (emits_only is_upload_event (main w args)).
    unfold main. rewrite B. apply emits_only_bind; [apply emits_only_ret|].
    intros _. destruct (bucket args) as [b|]; [|apply emits_only_ret].
    destruct (PyStr.truthy (Some b)); [|apply emits_only_ret].
    apply emits_only_bind; [apply directory_upload_emits|].
    intros _. apply single_file_upload_emits. }
  split; [exact F | now apply upload_events_no_build].
Qed.

Lemma main_without_build_only_uploads_witness :
  launched (snd (run (main upload_world
                        (mkArgs (Some "data") false (Some "png") None None None
                                (Some "bkt"))))) = [].
Proof.
  apply (main_without_build_only_uploads upload_world
           (mkArgs (Some "data") false (Some "png") None None None (Some "bkt")) []).
  reflexivity.
Defined.

Lemma bind_ret_l {A B} (a : A) (k : A -> M B) (h : list event) :
  bind (ret a) k h = k a h.
Proof.
  unfold bind, ret. rewrite app_nil_r. now destruct (k a h).
Qed.



(* ================================================================== *)
(** ** The single file, alone and beside the directory *)

Section SingleFile.

Variable w : World.
Hypothesis client_created : forall h, boto3_client_raises w h = None.
Hypothesis only_client_errors :
  forall h f b k e, s3_upload_raises w h f b k = Some e -> is_ClientError e = true.

Lemma single_file_upload_existing (sf bkt : string) (df : option string)
    (h : list event) :
  sf <> EmptyString -> isfile w sf = true ->
  exists t,
    single_file_upload w (Some sf) df bkt h
    = (Ret tt, LogInfo ("Copying file " ++ sf) :: t) /\
    s3_calls t = [(sf, bkt, object_key sf df)].
Proof.
  intros N F. unfold single_file_upload. rewrite (truthy_Some sf N), F.
  destruct (upload_file_returns w client_created only_client_errors sf bkt df
              (h ++ [LogInfo ("Copying file " ++ sf)])%list) as (r & d & E & C).
  exists d. split; [|exact C].
  unfold bind, logging_info, emit, ret. rewrite E. cbv beta iota.
  now rewrite app_nil_r.
Qed.

End SingleFile.

(** X11.  For an existing source file, when creating the client does not
    fail and the upload raises nothing but [ClientError], the single-file
    upload logs the file, calls the upload exactly once and returns
    normally, also when the upload failed.  The object key is the
    destination file when one is given and not empty, and the base name of
    the source file otherwise. *)
Theorem single_file_upload_uploads_once (w : World) (sf bkt : string)
    (df : option string) (h : list event) :
  sf <> EmptyString -> isfile w sf = true ->
  (forall h', boto3_client_raises w h' = None) ->
  (forall h' f b k e, s3_upload_raises w h' f b k = Some e -> is_ClientError e = true) ->
  exists t,
    single_file_upload w (Some sf) df bkt h
    = (Ret tt, LogInfo ("Copying file " ++ sf) :: t) /\
    s3_calls t
    = [(sf, bkt,
        match df with
        | Some k => if String.eqb k EmptyString then OsPath.basename sf else k
        | None => OsPath.basename sf
        end)].
Proof.
  intros N F Hc Hs.
  destruct (single_file_upload_existing w Hc Hs sf bkt df h N F) as (t & E & C).
  exists t. split; [exact E|]. rewrite C. unfold object_key.
  destruct df as [k|]; [|reflexivity]. cbn [PyStr.truthy PyStr.format].
  now destruct (String.eqb k EmptyString).
Qed.

Lemma single_file_upload_uploads_once_witness :
  exists t,
    run (single_file_upload report_world (Some "out/report.csv") None "bkt")
    = (Ret tt, LogInfo "Copying file out/report.csv" :: t) /\
    s3_calls t = [("out/report.csv", "bkt", "report.csv")].
Proof.
  assert (N : "out/report.csv" <> EmptyString) by discriminate.
  destruct (single_file_upload_uploads_once report_world "out/report.csv" "bkt"
              None [] N eq_refl (fun _ => eq_refl)) as (t & E & C).
  - intros h' f b k e X. discriminate X.
  - exists t. split; [exact E | exact C].
Defined.



(** X13.  An exception other than [ClientError] in the directory upload ends
    the whole run: when the upload of the first selected file raises it,
    [main] ends with that exception right after that call, and the single
    file, whatever it is, is neither looked at nor uploaded. *)
Theorem main_directory_exception_blocks_file (w : World) (sd bkt : string)
    (fmt dd sf df : option string) (f : string) (rest : list string) (e : exn)
    (h : list event) :
  sd <> EmptyString -> bkt <> EmptyString -> isdir w sd = true ->
  resolve_files w (Some sd) fmt = f :: rest ->
  (forall h', boto3_client_raises w h' = None) ->
  (forall h', s3_upload_raises w h' f bkt (directory_key dd f) = Some e) ->
  is_ClientError e = false ->
  main w (mkArgs (Some sd) false fmt dd sf df (Some bkt)) h
  = (Raise e,
     [LogInfo ("Total files to copy - " ++ PyStr.of_nat (S (List.length rest)));
      LogInfo ("Copying file " ++ f);
      S3UploadCall f bkt (directory_key dd f)]).
Proof.
  intros Nsd Nb D G Hc Hs C. unfold main.
  cbn [build source_directory format_to_copy destination_directory source_file
         destination_file bucket].
  rewrite bind_ret_l, (truthy_Some bkt Nb).
  apply run_bind_Raise.
  rewrite (directory_upload_existing w sd fmt dd bkt h Nsd D). cbv zeta.
  rewrite G. rewrite upload_each_cons. cbv zeta.
  rewrite upload_file_eq. cbv zeta.
  rewrite object_key_of_directory, Hc, Hs, C. reflexivity.
Qed.

Lemma main_directory_exception_blocks_file_witness :
  isfile report_offline_world "out/report.csv" = true /\
  run (main report_offline_world
         (mkArgs (Some "data") false (Some "png") None (Some "out/report.csv")
                 None (Some "bkt")))
  = (Raise offline,
     [LogInfo "Total files to copy - 3"; LogInfo "Copying file data/a.png";
      S3UploadCall "data/a.png" "bkt" "a.png"]).
Proof.
  assert (A : "data" <> EmptyString) by discriminate.
  assert (B : "bkt" <> EmptyString) by discriminate.
  split; [reflexivity|].
  apply (main_directory_exception_blocks_file report_offline_world "data" "bkt"
           (Some "png") None (Some "out/report.csv") None "data/a.png"
           ["data/b.png"; "data/sub/c.png"] offline [] A B eq_refl eq_refl
           (fun _ => eq_refl) (fun _ => eq_refl) eq_refl).
Defined.

(* ================================================================== *)
(** ** Object keys and error lines of a directory upload *)

Lemma in_firstn {A} (n : nat) (l : list A) (x : A) : In x (firstn n l) -> In x l.
Proof.
  revert n; induction l as [|y l IH]; intros [|n] H; cbn in *; try contradiction.
  destruct H as [H|H]; [now left | right; eauto].
Qed.

(** X14.  The key of an uploaded entry is made from the entry's own name
    only.  For a directory as the tree model covers it, every upload call of
    a directory upload is for a path [root/d1/.../dk/x] and has the key [x],
    or the destination directory, a slash and [x]: the directories
    [d1 ... dk] do not appear in the key, so entries of one name in
    different subdirectories are uploaded under one and the same key. *)
Theorem directory_upload_keys_flatten (w : World) (sd : string)
    (entries : list (string * PyGlob.node)) (ext : string) (dd : option string)
    (bkt : string) (h : list event) :
  holds_directory w sd entries ->
  plain_root sd = true -> plain_ext ext = true ->
  PyGlob.names_ok (PyGlob.Dir entries) = true ->
  forall f b k,
    In (f, b, k) (s3_calls (snd (directory_upload w (Some sd) (Some ext) dd bkt h))) ->
    b = bkt /\
    exists ds x,
      f = sd ++ "/" ++ String.concat "/" (ds ++ [x]) /\
      PyStr.count "/" x = 0 /\
      k = (if PyStr.truthy dd then PyStr.format dd ++ "/" ++ x else x).
Proof.
  intros H PR PE OK f b k I.
  assert (N : sd <> EmptyString).
  { intros ->. discriminate PR. }
  destruct H as (D & G).
  rewrite (directory_upload_existing w sd (Some ext) dd bkt h N D) in I.
  cbv zeta in I.
  match type of I with
  | context [upload_each w ?fs bkt dd ?hh] =>
      destruct (upload_each_any_world w fs bkt dd hh) as (n & _ & C & _);
      destruct (upload_each w fs bkt dd hh) as [r d]
  end.
  cbn [snd] in I, C.
  change (s3_calls (LogInfo
            ("Total files to copy - "
             ++ PyStr.of_nat (List.length (resolve_files w (Some sd) (Some ext))))
            :: d)) with (s3_calls d) in I.
  rewrite C in I. apply in_map_iff in I as (f' & E & I). injection E as <- <- <-.
  apply in_firstn in I.
  unfold resolve_files, upload_pattern in I.
  cbn [PyStr.format] in I. rewrite (G ext PE) in I.
  apply (recursive_ext_spec sd entries ext f' PR OK) in I
    as (ds & sub & x & nd & R & Ix & _ & _ & ->).
  destruct (reaches_names_ok _ _ _ R OK) as [_ OKsub].
  destruct (names_ok_entry _ _ _ OKsub Ix) as [Nx _].
  split; [reflexivity|]. exists ds, x. split; [reflexivity|].
  split; [exact (proj2 (name_ok_parts x Nx))|].
  unfold directory_key. now rewrite (basename_result sd ds x Nx).
Qed.

Lemma directory_upload_keys_flatten_witness :
  s3_calls (snd (run (directory_upload twin_world (Some "data") (Some "png") None "bkt")))
  = [("data/cam1/0.png", "bkt", "0.png"); ("data/cam2/0.png", "bkt", "0.png")] /\
  exists ds x,
    "data/cam2/0.png" = "data" ++ "/" ++ String.concat "/" (ds ++ [x]) /\
    PyStr.count "/" x = 0 /\ "0.png" = x.
Proof.
  split; [reflexivity|].
  destruct (directory_upload_keys_flatten twin_world "data" twin_tree "png" None
              "bkt" [] (tree_world_holds "/home/u" "data" twin_tree)
              eq_refl eq_refl eq_refl "data/cam2/0.png" "bkt" "0.png")
    as (_ & ds & x & E & Z & K).
  - simpl. auto.
  - exists ds, x. auto.
Defined.

(** X15.  A storage service that refuses every upload with a [ClientError]
    does not stop a directory upload: every selected file is tried, each
    refusal is logged in one error line, and the directory upload returns
    normally. *)
Theorem directory_upload_all_refused (w : World) (sd bkt msg : string)
    (fmt dd : option string) (h : list event) :
  sd <> EmptyString -> isdir w sd = true ->
  (forall h', boto3_client_raises w h' = None) ->
  (forall h' f b k, s3_upload_raises w h' f b k = Some (ClientError msg)) ->
  exists t,
    directory_upload w (Some sd) fmt dd bkt h = (Ret tt, t) /\
    List.length (s3_calls t) = List.length (resolve_files w (Some sd) fmt) /\
    logged_errors t = repeat msg (List.length (resolve_files w (Some sd) fmt)).
Proof.
  intros N D Hc Hs.
  rewrite (directory_upload_existing w sd fmt dd bkt h N D). cbv zeta.
  set (line := LogInfo _).
  assert (L : forall files h0, exists d,
             upload_each w files bkt dd h0 = (Ret tt, d) /\
             List.length (s3_calls d) = List.length files /\
             logged_errors d = repeat msg (List.length files)).
  { induction files as [|f fs IH]; intros h0.
    - exists []. repeat split.
    - rewrite upload_each_cons. cbv zeta. rewrite upload_file_eq. cbv zeta.
      rewrite Hc, Hs. cbn [is_ClientError exn_str].
      match goal with
      | |- context [upload_each w fs bkt dd ?hh] =>
          destruct (IH hh) as (d & E & C & G); rewrite E
      end.
      set (l1 := LogInfo _). set (key := object_key f _).
      exists ([l1; S3UploadCall f bkt key; LogError msg] ++ d)%list.
      split; [reflexivity|]. split.
      + rewrite s3_calls_app, length_app, C. reflexivity.
      + rewrite logged_errors_app, G. reflexivity. }
  destruct (L (resolve_files w (Some sd) fmt) (h ++ [line])%list) as (d & E & C & G).
  rewrite E. exists (line :: d). split; [reflexivity|]. split; assumption.
Qed.

Lemma directory_upload_all_refused_witness :
  exists t,
    run (directory_upload denied_world (Some "data") (Some "png") None "bkt")
    = (Ret tt, t) /\
    List.length (s3_calls t) = 3 /\
    logged_errors t = repeat "An error occurred (AccessDenied)" 3.
Proof.
  assert (A : "data" <> EmptyString) by discriminate.
  exact (directory_upload_all_refused denied_world "data" "bkt"
           "An error occurred (AccessDenied)" (Some "png") None [] A eq_refl
           (fun _ => eq_refl) (fun _ _ _ _ => eq_refl)).
Defined.

(* ================================================================== *)
(** ** The name a camera identifier comes from *)

(** X16.  For a folder [root/x/rgb/], where [x] is the name of a directory
    entry that does not begin with a dot, lines 51-52 find the name [x],
    whatever the root and the working directory are; so the identifier, the
    log file and the video name of the folder depend on [x] alone. *)
Theorem identifier_from_camera_folder_name (w1 w2 : World)
    (root1 root2 x : string) :
  PyGlob.name_ok x = true -> PyGlob.ishidden x = false ->
  camera_folder_name w1 (root1 ++ "/" ++ x ++ "/rgb/") = x /\
  camera_identifier x = Ret (identifier_of w1 (root1 ++ "/" ++ x ++ "/rgb/")) /\
  identifier_of w1 (root1 ++ "/" ++ x ++ "/rgb/")
  = identifier_of w2 (root2 ++ "/" ++ x ++ "/rgb/").
Proof.
  intros Hx Vx.
  pose proof (identifier_of_rgb_folder w1 root1 x Hx Vx) as E1.
  pose proof (identifier_of_rgb_folder w2 root2 x Hx Vx) as E2.
  split; [now apply camera_folder_name_of_rgb_folder|]. split; [exact E1|].
  rewrite E1 in E2. now injection E2.
Qed.

Lemma identifier_from_camera_folder_name_witness :
  camera_folder_name camera_world "data/World_Cameras_Camera_01/rgb/"
  = "World_Cameras_Camera_01" /\
  identifier_of camera_world "data/World_Cameras_Camera_01/rgb/"
  = identifier_of readonly_world "/mnt/run7/World_Cameras_Camera_01/rgb/".
Proof.
  destruct (identifier_from_camera_folder_name camera_world readonly_world
              "data" "/mnt/run7" "World_Cameras_Camera_01" eq_refl eq_refl)
    as (A & _ & B).
  split; [exact A | exact B].
Defined.
